(** * Machine ASoC driver for the ChamSys MQ50HD / MQ70HD consoles
      (RK3288 Firefly Core board, ES8328 codec)

    Shallow embedding of [sound/soc/rockchip/rk3288_chamsys_audio.c]:
    the two register tables, the master-clock set-up, the register
    programmer, the three link callbacks and the platform probe, followed
    by the properties of the clock / register sequencing and of the
    probe.

    C [int] and [unsigned char] values are integers in [Z]; the calls into
    the ASoC core ([snd_soc_dai_set_sysclk], [snd_soc_component_write],
    [dev_err]) are recorded in a chronological trace, and the values the
    core hands back are supplied by a record of collaborators. *)

From stdpp Require Import gmap strings list fin_maps.
From Stdlib Require Import ZArith Lia.

Local Open Scope Z_scope.

(** ** Constants *)

Definition CSYS_AUDIO_MCLK : Z := 11289600.
Definition CSYS_AUDIO_MCLK_FS : Z := 256.
Definition CSYS_AUDIO_LRCLK : Z := 44100.

(** Modelled from the spec: [EINVAL] comes from the kernel's errno header,
    which is not part of this driver file; it is the invalid-parameter
    error number, 22. *)
Definition EINVAL : Z := 22.

(** The clock direction argument of [snd_soc_dai_set_sysclk]. *)
Inductive clock_dir := SND_SOC_CLOCK_IN | SND_SOC_CLOCK_OUT.

(** ** Register tables *)

Definition csys_es8328_regs : list Z :=
  [ 0x00; 0x35   (* ADC+DAC fs, power seq, ref *)
  ; 0x03; 0x09   (* ADC power *)
  ; 0x09; 0x00   (* ADC gain *)
  ; 0x0a; 0x00   (* ADC input select *)
  ; 0x0b; 0x00   (* ADC input select *)
  ; 0x10; 0x00   (* ADC left volume *)
  ; 0x11; 0x00   (* ADC right volume *)
  ; 0x12; 0xea   (* ADC ALC on, min/max gain *)
  ; 0x13; 0xc0   (* ADC ALC timing *)
  ; 0x14; 0x05   (* ADC ALC timing *)
  ; 0x15; 0x06   (* ADC ALC params *)
  ; 0x16; 0x53   (* ADC Gate on *)
  ; 0x19; 0x02   (* DAC mute, volume control *)
  ; 0x1A; 0x0A   (* DAC left volume *)
  ; 0x1B; 0x0A   (* DAC right volume *)
  ; 0x26; 0x12   (* DAC mixer *)
  ; 0x27; 0xb8   (* DAC mixer *)
  ; 0x28; 0x38   (* DAC mixer *)
  ; 0x29; 0x38   (* DAC mixer *)
  ; 0x2A; 0xb8   (* DAC mixer *)
  ; 0x2e; 0x24   (* DAC LOUT1 volume *)
  ; 0x2f; 0x24   (* DAC ROUT1 volume *)
  ; 0x30; 0x00   (* DAC LOUT2 volume *)
  ; 0x31; 0x00   (* DAC ROUT2 volume *)
  ; 0xFF; 0xFF ].

Definition csys_es8328_regs_quiet : list Z :=
  [ 0x2e; 0x00   (* DAC LOUT1 volume *)
  ; 0x2f; 0x00   (* DAC ROUT1 volume *)
  ; 0xFF; 0xFF ].

(** ** Handles, runtime and outside world *)

(** DAIs and components are referred to by handle; a null component
    pointer is [None]. *)
Abbreviation dai := nat.
Abbreviation component := nat.

Record snd_soc_pcm_runtime := Runtime {
  cpu_dai : dai;
  codec_dai : dai;
  num_components : Z;
  components : list (option component)
}.

Record snd_pcm_substream := Substream {
  private_data : snd_soc_pcm_runtime
}.

Record snd_pcm_hw_params := HwParams {
  params_rate : Z
}.

(** What the driver asks of the ASoC core, in the order it asks. *)
Inductive event :=
| EvSetSysclk (d : dai) (clk_id freq : Z) (dir : clock_dir)
| EvDevErr (d : dai) (msg : string)
| EvWrite (codec : component) (reg val : Z).

(** The world outside the driver: the calls made so far and, per
    component, the last value written to each register address. *)
Record world := World {
  trace : list event;
  regmap : gmap (component * Z) Z
}.

(** The answers of the ASoC core. Both may depend on everything that
    happened before the call. *)
Record collaborators := Collaborators {
  sysclk_result : dai → Z → Z → clock_dir → world → Z;
  write_result : component → Z → Z → world → Z
}.

Definition log (e : event) (w : world) : world :=
  World (trace w ++ [e]) (regmap w).

Definition store (codec : component) (reg val : Z) (w : world) : world :=
  World (trace w) (<[(codec, reg) := val]> (regmap w)).

(** ** A state monad over the world *)

Definition M (A : Type) : Type := world → A * world.

#[global] Instance M_ret : MRet M := λ A a w, (a, w).
#[global] Instance M_bind : MBind M :=
  λ A B f m w, let '(a, w') := m w in f a w'.

Definition result {A} (r : A * world) : A := r.1.
Definition after {A} (r : A * world) : world := r.2.

(** Events appended by a computation started in [w]. *)
Definition emitted {A} (m : M A) (w : world) : list event :=
  drop (length (trace w)) (trace (after (m w))).

Definition clock_calls (tr : list event) : list (dai * Z * Z * clock_dir) :=
  omap (λ e, match e with
             | EvSetSysclk d id f dir => Some (d, id, f, dir)
             | _ => None
             end) tr.

Definition reg_writes (tr : list event) : list (component * Z * Z) :=
  omap (λ e, match e with
             | EvWrite c a v => Some (c, a, v)
             | _ => None
             end) tr.

(** How the walk over a register table ended. *)
Inductive walk_exit := SentinelReached | ReadPastEnd | OutOfFuel.

(** The callback tables the link hands to the ASoC core. *)
Record snd_soc_ops := SocOps {
  hw_params : snd_pcm_substream → snd_pcm_hw_params → M Z;
  startup : snd_pcm_substream → M Z;
  shutdown : snd_pcm_substream → M unit
}.

Record snd_soc_dai_link := DaiLink {
  init : snd_soc_pcm_runtime → M Z;
  ops : snd_soc_ops
}.

Section Driver.
Variable core : collaborators.

(** *** Calls into the ASoC core *)

Definition snd_soc_dai_set_sysclk (d : dai) (clk_id freq : Z)
    (dir : clock_dir) : M Z :=
  λ w, (sysclk_result core d clk_id freq dir w,
        log (EvSetSysclk d clk_id freq dir) w).

Definition dev_err (d : dai) (msg : string) : M unit :=
  λ w, (tt, log (EvDevErr d msg) w).

Definition snd_soc_component_write (codec : component) (reg val : Z) : M Z :=
  λ w, (write_result core codec reg val w,
        store codec reg val (log (EvWrite codec reg val) w)).

(** *** Clock set-up *)

Definition csys_audio_set_mclk (runtime : snd_soc_pcm_runtime) : M Z :=
  let cpu := cpu_dai runtime in
  let codec := codec_dai runtime in
  ret ← snd_soc_dai_set_sysclk cpu 0 CSYS_AUDIO_MCLK SND_SOC_CLOCK_OUT;
  if negb (ret =? 0) then
    dev_err cpu "Cannot set cpu MCLK\n";; mret ret
  else
    ret ← snd_soc_dai_set_sysclk codec 0 CSYS_AUDIO_MCLK SND_SOC_CLOCK_OUT;
    if negb (ret =? 0) then
      dev_err codec "Cannot set codec MCLK\n";; mret ret
    else mret 0.

Definition csys_audio_hw_params (substream : snd_pcm_substream)
    (params : snd_pcm_hw_params) : M Z :=
  let rtd := private_data substream in
  if negb (params_rate params =? CSYS_AUDIO_LRCLK) then mret (- EINVAL)
  else
    ret ← csys_audio_set_mclk rtd;
    if negb (ret =? 0) then mret ret else mret 0.

(** *** Register programmer *)

(** The walk of [csys_audio_set_es8328_regs] from index [i]. A read past
    the end of the array has no meaning in C and ends the walk with
    [ReadPastEnd]; [fuel] bounds the number of iterations. *)
Fixpoint set_es8328_regs_from (fuel : nat) (codec : component)
    (regs : list Z) (i : nat) : M walk_exit :=
  match fuel with
  | O => mret OutOfFuel
  | S fuel' =>
    match regs !! i with
    | None => mret ReadPastEnd
    | Some reg =>
      if negb (reg =? 0xFF) then
        match regs !! (i + 1)%nat with
        | None => mret ReadPastEnd
        | Some val =>
          snd_soc_component_write codec reg val;;
          set_es8328_regs_from fuel' codec regs (i + 2)%nat
        end
      else mret SentinelReached
    end
  end.

Definition csys_audio_set_es8328_regs (codec : component)
    (regs : list Z) : M walk_exit :=
  set_es8328_regs_from (S (length regs)) codec regs 0%nat.

(** *** Link callbacks *)

(** [rtd->num_components == 3 && rtd->components[1]], and the component
    then taken as the codec. The second slot is only read when the count
    is 3. *)
Definition bound_codec (rtd : snd_soc_pcm_runtime) : option component :=
  if num_components rtd =? 3 then
    match components rtd !! 1%nat with
    | Some (Some codec) => Some codec
    | _ => None
    end
  else None.

Definition csys_audio_startup (substream : snd_pcm_substream) : M Z :=
  let rtd := private_data substream in
  match bound_codec rtd with
  | Some codec =>
    csys_audio_set_es8328_regs codec csys_es8328_regs;; mret 0
  | None => mret 0
  end.

Definition csys_audio_shutdown (substream : snd_pcm_substream) : M unit :=
  let rtd := private_data substream in
  match bound_codec rtd with
  | Some codec =>
    csys_audio_set_es8328_regs codec csys_es8328_regs_quiet;; mret tt
  | None => mret tt
  end.

Definition csys_audio_init (runtime : snd_soc_pcm_runtime) : M Z :=
  ret ← csys_audio_set_mclk runtime;
  if negb (ret =? 0) then mret ret
  else
    match bound_codec runtime with
    | Some codec =>
      (* Keep audio out quiet during boot *)
      csys_audio_set_es8328_regs codec csys_es8328_regs_quiet;; mret 0
    | None => mret 0
    end.

Definition rk_ops : snd_soc_ops :=
  {| hw_params := csys_audio_hw_params;
     startup := csys_audio_startup;
     shutdown := csys_audio_shutdown |}.

Definition csys_dailink : snd_soc_dai_link :=
  {| init := csys_audio_init; ops := rk_ops |}.

(** *** The three lifecycle events

    The link only registers its callbacks in [csys_dailink] and [rk_ops];
    the ASoC PCM core, which is not part of this driver file, calls them.
    The card is brought up through [init]. A substream is opened through
    [startup] and, once open (that is, when [startup] returned 0), is
    configured through [hw_params]; it is closed through [shutdown]. *)

Definition card_init (link : snd_soc_dai_link)
    (rtd : snd_soc_pcm_runtime) : M Z :=
  init link rtd.

Definition stream_start (link : snd_soc_dai_link)
    (substream : snd_pcm_substream) (params : snd_pcm_hw_params) : M Z :=
  ret ← startup (ops link) substream;
  if negb (ret =? 0) then mret ret
  else hw_params (ops link) substream params.

Definition stream_stop (link : snd_soc_dai_link)
    (substream : snd_pcm_substream) : M unit :=
  shutdown (ops link) substream.

End Driver.

(** ** Register tables as entries *)

(** A table read two bytes at a time: (address, value) pairs, up to the
    first pair whose address is the sentinel. *)
Fixpoint profile_entries (regs : list Z) : list (Z * Z) :=
  match regs with
  | reg :: val :: rest =>
    if negb (reg =? 0xFF) then (reg, val) :: profile_entries rest else []
  | _ => []
  end.

(** How the walk over a table ends, read off the table alone. *)
Fixpoint profile_exit (regs : list Z) : walk_exit :=
  match regs with
  | [] => ReadPastEnd
  | [reg] => if negb (reg =? 0xFF) then ReadPastEnd else SentinelReached
  | reg :: _ :: rest =>
    if negb (reg =? 0xFF) then profile_exit rest else SentinelReached
  end.

(** All pairs of a table, sentinel or not. *)
Fixpoint table_pairs (regs : list Z) : list (Z * Z) :=
  match regs with
  | reg :: val :: rest => (reg, val) :: table_pairs rest
  | _ => []
  end.

(** The bytes of a list of entries. *)
Fixpoint table_bytes (es : list (Z * Z)) : list Z :=
  match es with
  | [] => []
  | (reg, val) :: es' => reg :: val :: table_bytes es'
  end.

Definition write_entry (codec : component) (w : world) (e : Z * Z) : world :=
  store codec e.1 e.2 (log (EvWrite codec e.1 e.2) w).

(** The world after writing the entries [es], first to last. *)
Definition write_all (codec : component) (es : list (Z * Z)) (w : world) : world :=
  foldl (write_entry codec) w es.

Definition write_events (codec : component) (es : list (Z * Z)) : list event :=
  map (λ e, EvWrite codec e.1 e.2) es.

Definition keyed (codec : component) (es : list (Z * Z)) : list (component * Z * Z) :=
  map (λ e, (codec, e.1, e.2)) es.

(** The registers of the ES8328 that set the level of an output line. *)
Definition es8328_output_volume_regs : list Z := [0x2e; 0x2f; 0x30; 0x31].

Definition ACTIVE : list (Z * Z) := profile_entries csys_es8328_regs.
Definition QUIET : list (Z * Z) := profile_entries csys_es8328_regs_quiet.

(** The world left behind by programming a table into a codec. *)
Definition apply_profile (core : collaborators) (codec : component)
    (regs : list Z) (w : world) : world :=
  after (csys_audio_set_es8328_regs core codec regs w).

(** The two master-clock requests of [csys_audio_set_mclk]. *)
Definition cpu_clock_call (rtd : snd_soc_pcm_runtime) : event :=
  EvSetSysclk (cpu_dai rtd) 0 11289600 SND_SOC_CLOCK_OUT.
Definition codec_clock_call (rtd : snd_soc_pcm_runtime) : event :=
  EvSetSysclk (codec_dai rtd) 0 11289600 SND_SOC_CLOCK_OUT.

(** What the core answers to each of them when asked in [w]. *)
Definition cpu_clock_answer (core : collaborators)
    (rtd : snd_soc_pcm_runtime) (w : world) : Z :=
  sysclk_result core (cpu_dai rtd) 0 11289600 SND_SOC_CLOCK_OUT w.
Definition codec_clock_answer (core : collaborators)
    (rtd : snd_soc_pcm_runtime) (w : world) : Z :=
  sysclk_result core (codec_dai rtd) 0 11289600 SND_SOC_CLOCK_OUT
    (log (cpu_clock_call rtd) w).

(** The register writes a lifecycle event owes to the bound codec. *)
Definition codec_writes (rtd : snd_soc_pcm_runtime)
    (es : list (Z * Z)) : list event :=
  match bound_codec rtd with
  | Some codec => write_events codec es
  | None => []
  end.

(** ** Sample configurations *)

Module Sample.

(** Every request to the core succeeds. *)
Definition core_ok : collaborators :=
  Collaborators (λ _ _ _ _ _, 0) (λ _ _ _ _, 0).

(** The interface side (DAI 0) refuses the clock with -5; the codec side
    would accept it. *)
Definition core_cpu_fails : collaborators :=
  Collaborators (λ d _ _ _ _, if (d =? 0)%nat then -5 else 0) (λ _ _ _ _, 0).

(** The codec side (DAI 1) refuses the clock with -22. *)
Definition core_codec_fails : collaborators :=
  Collaborators (λ d _ _ _ _, if (d =? 1)%nat then -22 else 0) (λ _ _ _ _, 0).

(** A link with its three components bound; component 11 is the codec. *)
Definition rtd_codec : snd_soc_pcm_runtime :=
  Runtime 0 1 3 [Some 10%nat; Some 11%nat; Some 12%nat].

(** The same link with a null codec slot. *)
Definition rtd_no_codec : snd_soc_pcm_runtime :=
  Runtime 0 1 3 [Some 10%nat; None; Some 12%nat].

Definition sub_codec : snd_pcm_substream := Substream rtd_codec.
Definition sub_no_codec : snd_pcm_substream := Substream rtd_no_codec.

Definition rate_44100 : snd_pcm_hw_params := HwParams 44100.
Definition rate_48000 : snd_pcm_hw_params := HwParams 48000.

Definition w0 : world := World [] ∅.

End Sample.

(** ** Sequences of callbacks *)

(** The entry points the link hands to the ASoC core. *)
Inductive callback :=
| CbInit
| CbStartup
| CbHwParams (params : snd_pcm_hw_params)
| CbShutdown.

(** One call of the core into the link, on the runtime [rtd]. *)
Definition invoke (link : snd_soc_dai_link) (rtd : snd_soc_pcm_runtime)
    (cb : callback) : M Z :=
  match cb with
  | CbInit => init link rtd
  | CbStartup => startup (ops link) (Substream rtd)
  | CbHwParams params => hw_params (ops link) (Substream rtd) params
  | CbShutdown => shutdown (ops link) (Substream rtd);; mret 0
  end.

(** Any number of such calls, in any order; the results are dropped. *)
Fixpoint session (link : snd_soc_dai_link) (rtd : snd_soc_pcm_runtime)
    (cbs : list callback) : M unit :=
  match cbs with
  | [] => mret tt
  | cb :: rest => invoke link rtd cb;; session link rtd rest
  end.

(** A run of clock requests as [csys_audio_set_mclk] makes them: each
    request to the codec DAI directly follows one to the interface DAI. *)
Inductive clock_blocks (rtd : snd_soc_pcm_runtime) :
    list (dai * Z * Z * clock_dir) → Prop :=
| blocks_nil : clock_blocks rtd []
| blocks_cpu calls :
    clock_blocks rtd calls →
    clock_blocks rtd
      ((cpu_dai rtd, 0, CSYS_AUDIO_MCLK, SND_SOC_CLOCK_OUT) :: calls)
| blocks_both calls :
    clock_blocks rtd calls →
    clock_blocks rtd
      ((cpu_dai rtd, 0, CSYS_AUDIO_MCLK, SND_SOC_CLOCK_OUT)
       :: (codec_dai rtd, 0, CSYS_AUDIO_MCLK, SND_SOC_CLOCK_OUT) :: calls).

Definition dev_errs (tr : list event) : list (dai * string) :=
  omap (λ e, match e with
             | EvDevErr d msg => Some (d, msg)
             | _ => None
             end) tr.

(** ** Probing the platform device *)

Abbreviation device_node := nat.
Abbreviation device := nat.

(** [pdev->dev] and [pdev->dev.of_node]. *)
Record platform_device := PlatformDevice {
  pdev_dev : device;
  pdev_of_node : option device_node
}.

Record of_phandle_args := PhandleArgs {
  args_np : option device_node;
  args_count : Z;
  args : list Z
}.

Record snd_soc_dai_link_component := LinkComponent {
  name : option string;
  of_node : option device_node;
  dai_name : option string
}.

(** The calls [csys_audio_probe] makes, each with what it was given and
    what came back. *)
Inductive probe_event :=
| PvKzalloc (dev : device) (ret : option nat)
| PvParsePhandle (np : option device_node) (prop : string) (index : Z)
    (ret : option device_node)
| PvParseFixedArgs (np : option device_node) (prop : string)
    (cells index : Z) (ret : Z)
| PvGetDaiName (args : of_phandle_args) (ret : Z)
| PvRegisterCard (dev : device) (ret : Z)
| PvDevErr (dev : device) (msg : string) (fmt_args : list Z).

(** The module-wide card and link that the probe fills in, with the
    calls made so far. *)
Record probe_state := ProbeState {
  ptrace : list probe_event;
  cpus : snd_soc_dai_link_component;
  codecs : snd_soc_dai_link_component;
  platforms : snd_soc_dai_link_component;
  card_dev : option device;
  card_drvdata : option nat
}.

(** The kernel services behind the probe. Each answer may depend on the
    state in which the call is made. [snd_soc_get_dai_name] also says what
    it leaves in the name slot it was handed. *)
Record platform := Platform {
  kzalloc_result : device → probe_state → option nat;
  parse_phandle_result :
    option device_node → string → Z → probe_state → option device_node;
  parse_fixed_args_result :
    option device_node → string → Z → Z → probe_state → Z * of_phandle_args;
  get_dai_name_result :
    of_phandle_args → option string → probe_state → Z * option string;
  register_card_result : device → probe_state → Z
}.

Definition PM (A : Type) : Type := probe_state → A * probe_state.

#[global] Instance PM_ret : MRet PM := λ A a s, (a, s).
#[global] Instance PM_bind : MBind PM :=
  λ A B f m s, let '(a, s') := m s in f a s'.

Definition plog (e : probe_event) (s : probe_state) : probe_state :=
  ProbeState (ptrace s ++ [e]) (cpus s) (codecs s) (platforms s)
    (card_dev s) (card_drvdata s).

Definition set_of_node (c : snd_soc_dai_link_component)
    (np : option device_node) : snd_soc_dai_link_component :=
  LinkComponent (name c) np (dai_name c).

Definition set_dai_name (c : snd_soc_dai_link_component)
    (n : option string) : snd_soc_dai_link_component :=
  LinkComponent (name c) (of_node c) n.

(** [SND_SOC_DAILINK_DEFS(links, ...)]: empty interface and platform
    slots, and a codec slot with no name and the DAI name "HiFi". *)
Definition links_cpus : snd_soc_dai_link_component :=
  LinkComponent None None None.
Definition links_codecs : snd_soc_dai_link_component :=
  LinkComponent None None (Some "HiFi"%string).
Definition links_platforms : snd_soc_dai_link_component :=
  LinkComponent None None None.

(** The card and link as the module is loaded. *)
Definition module_loaded : probe_state :=
  ProbeState [] links_cpus links_codecs links_platforms None None.

Definition pemitted {A} (m : PM A) (s : probe_state) : list probe_event :=
  drop (length (ptrace s)) (ptrace (m s).2).

(** The kinds of call the probe makes. *)
Inductive probe_call :=
| CallKzalloc
| CallParsePhandle (prop : string)
| CallParseFixedArgs (prop : string)
| CallGetDaiName
| CallRegisterCard
| CallDevErr.

Definition call_of (e : probe_event) : probe_call :=
  match e with
  | PvKzalloc _ _ => CallKzalloc
  | PvParsePhandle _ prop _ _ => CallParsePhandle prop
  | PvParseFixedArgs _ prop _ _ _ => CallParseFixedArgs prop
  | PvGetDaiName _ _ => CallGetDaiName
  | PvRegisterCard _ _ => CallRegisterCard
  | PvDevErr _ _ _ => CallDevErr
  end.


Section Probe.
Variable kernel : platform.

(** The two error numbers of the probe besides [EINVAL]; their values
    are set in kernel headers outside this driver file. *)
Variable ENOMEM : Z.
Variable EPROBE_DEFER : Z.

Definition devm_kzalloc (dev : device) : PM (option nat) :=
  λ s, let ret := kzalloc_result kernel dev s in
       (ret, plog (PvKzalloc dev ret) s).

Definition of_parse_phandle (np : option device_node) (prop : string)
    (index : Z) : PM (option device_node) :=
  λ s, let ret := parse_phandle_result kernel np prop index s in
       (ret, plog (PvParsePhandle np prop index ret) s).

Definition of_parse_phandle_with_fixed_args (np : option device_node)
    (prop : string) (cells index : Z) : PM (Z * of_phandle_args) :=
  λ s, let ret := parse_fixed_args_result kernel np prop cells index s in
       (ret, plog (PvParseFixedArgs np prop cells index ret.1) s).

(** [snd_soc_get_dai_name(&args, &csys_dailink.codecs[0].dai_name)] *)
Definition snd_soc_get_dai_name_codecs (a : of_phandle_args) : PM Z :=
  λ s, let ret := get_dai_name_result kernel a (dai_name (codecs s)) s in
       let s1 := plog (PvGetDaiName a ret.1) s in
       (ret.1,
        ProbeState (ptrace s1) (cpus s1) (set_dai_name (codecs s1) ret.2)
          (platforms s1) (card_dev s1) (card_drvdata s1)).

Definition devm_snd_soc_register_card (dev : device) : PM Z :=
  λ s, let ret := register_card_result kernel dev s in
       (ret, plog (PvRegisterCard dev ret) s).

Definition pdev_err (dev : device) (msg : string) (fmt_args : list Z) : PM unit :=
  λ s, (tt, plog (PvDevErr dev msg fmt_args) s).

Definition set_card_dev (dev : device) : PM unit :=
  λ s, (tt, ProbeState (ptrace s) (cpus s) (codecs s) (platforms s)
              (Some dev) (card_drvdata s)).

Definition snd_soc_card_set_drvdata (data : nat) : PM unit :=
  λ s, (tt, ProbeState (ptrace s) (cpus s) (codecs s) (platforms s)
              (card_dev s) (Some data)).

Definition set_cpus_of_node (np : option device_node) : PM unit :=
  λ s, (tt, ProbeState (ptrace s) (set_of_node (cpus s) np) (codecs s)
              (platforms s) (card_dev s) (card_drvdata s)).

Definition set_platforms_of_node (np : option device_node) : PM unit :=
  λ s, (tt, ProbeState (ptrace s) (cpus s) (codecs s)
              (set_of_node (platforms s) np) (card_dev s) (card_drvdata s)).

Definition set_codecs_of_node (np : option device_node) : PM unit :=
  λ s, (tt, ProbeState (ptrace s) (cpus s) (set_of_node (codecs s) np)
              (platforms s) (card_dev s) (card_drvdata s)).

Definition csys_audio_probe (pdev : platform_device) : PM Z :=
  let dev := pdev_dev pdev in
  let np := pdev_of_node pdev in
  machine ← devm_kzalloc dev;
  match machine with
  | None => mret (- ENOMEM)
  | Some machine =>
    set_card_dev dev;;
    tmpdn ← of_parse_phandle np "chamsys,audio-cpu" 0;
    match tmpdn with
    | None =>
      pdev_err dev "Property 'chamsys,audio-cpu' missing or invalid\n" [];;
      mret (- EINVAL)
    | Some _ =>
      set_cpus_of_node tmpdn;;
      set_platforms_of_node tmpdn;;
      tmpdn ← of_parse_phandle np "chamsys,audio-codec" 0;
      match tmpdn with
      | None =>
        pdev_err dev "Property 'chamsys,audio-codec' missing or invalid\n" [];;
        mret (- EINVAL)
      | Some _ =>
        set_codecs_of_node tmpdn;;
        (* Set dai_name for codec as it is compulsory *)
        parsed ← of_parse_phandle_with_fixed_args np "chamsys,audio-codec" 0 0;
        let ret := parsed.1 in
        if negb (ret =? 0) then
          pdev_err dev "Unable to parse property 'chamsys,audio-codec'\n" [];;
          mret ret
        else
          ret ← snd_soc_get_dai_name_codecs parsed.2;
          if negb (ret =? 0) then
            pdev_err dev "Unable to get codec_dai_name\n" [];;
            mret ret
          else
            snd_soc_card_set_drvdata machine;;
            ret ← devm_snd_soc_register_card dev;
            if ret =? - EPROBE_DEFER then mret (- EPROBE_DEFER)
            else if negb (ret =? 0) then
              pdev_err dev "Soc register card failed %d\n" [ret];;
              mret ret
            else mret ret
      end
    end
  end.

End Probe.

(** ** What the link may ask for *)

(** The requests the callbacks can make for the runtime [rtd]: a register
    write goes to the second component of a three-component runtime and
    carries an entry of one of the two tables; a clock request goes to one
    of the two DAIs with clock id 0, the fixed master clock and the
    direction out; an error message is logged against one of the DAIs. *)
Definition link_request (rtd : snd_soc_pcm_runtime) (e : event) : Prop :=
  match e with
  | EvSetSysclk d clk_id freq dir =>
    (d = cpu_dai rtd ∨ d = codec_dai rtd)
    ∧ clk_id = 0 ∧ freq = 11289600 ∧ dir = SND_SOC_CLOCK_OUT
  | EvDevErr d _ => d = cpu_dai rtd ∨ d = codec_dai rtd
  | EvWrite c reg val =>
    num_components rtd = 3
    ∧ components rtd !! 1%nat = Some (Some c)
    ∧ ((reg, val) ∈ ACTIVE ∨ (reg, val) ∈ QUIET)
  end.

(** What a step leaves behind: requests appended to the trace, all of
    them requests of the link, the clock requests among them in blocks,
    and registers changed only at the addresses of the active table on
    the bound codec. *)
Definition link_step (rtd : snd_soc_pcm_runtime) (w w' : world) : Prop :=
  (∃ evs, trace w' = trace w ++ evs
          ∧ Forall (link_request rtd) evs
          ∧ clock_blocks rtd (clock_calls evs))
  ∧ ∀ c a, bound_codec rtd ≠ Some c ∨ a ∉ ACTIVE.*1 →
           regmap w' !! (c, a) = regmap w !! (c, a).

(** The two output registers the quiet table writes, LOUT1 and ROUT1
    volume, both hold 0. *)
Definition outputs_muted (codec : component) (w : world) : Prop :=
  regmap w !! (codec, 0x2e) = Some 0 ∧ regmap w !! (codec, 0x2f) = Some 0.

(** ** More sample configurations *)

Module Faulty.

(** Clock requests succeed, every register write fails on the bus. *)
Definition core_bus_fails : collaborators :=
  Collaborators (λ _ _ _ _ _, 0) (λ _ _ _ _, -5).

(** A full stream life: bring-up, open, configure, close. *)
Definition one_stream : list callback :=
  [CbInit; CbStartup; CbHwParams Sample.rate_44100; CbShutdown].

End Faulty.

(** ** Sample boards *)

Module Board.

(** Device 7 with device-tree node 1. *)
Definition pdev : platform_device := PlatformDevice 7%nat (Some 1%nat).

(** A complete device tree: the interface is node 2, the codec node 3,
    and the codec driver names its DAI. *)
Definition tree (prop : string) : option device_node :=
  if bool_decide (prop = "chamsys,audio-cpu"%string) then Some 2%nat
  else if bool_decide (prop = "chamsys,audio-codec"%string) then Some 3%nat
  else None.

Definition kernel_ok : platform :=
  Platform (λ _ _, Some 100%nat)
    (λ _ prop _ _, tree prop)
    (λ _ _ _ _ _, (0, PhandleArgs (Some 3%nat) 0 []))
    (λ _ _ _, (0, Some "ES8328 HiFi"%string))
    (λ _ _, 0).

(** The same board while the codec driver is not there yet: registering
    the card asks to be called again, with -517. *)
Definition kernel_defers : platform :=
  Platform (λ _ _, Some 100%nat)
    (λ _ prop _ _, tree prop)
    (λ _ _ _ _ _, (0, PhandleArgs (Some 3%nat) 0 []))
    (λ _ _ _, (0, Some "ES8328 HiFi"%string))
    (λ _ _, -517).

(** A device tree that lacks the codec property. *)
Definition kernel_no_codec : platform :=
  Platform (λ _ _, Some 100%nat)
    (λ _ prop _ _,
       if bool_decide (prop = "chamsys,audio-cpu"%string) then Some 2%nat
       else None)
    (λ _ _ _ _ _, (-22, PhandleArgs None 0 []))
    (λ _ _ _, (-22, None))
    (λ _ _, 0).

End Board.

(** ** Unfolding the monad *)

Ltac run :=
  unfold result, after, mbind, mret, M_bind, M_ret,
         snd_soc_dai_set_sysclk, dev_err, snd_soc_component_write; cbn.

Ltac unfold_monad := unfold mbind, mret, M_bind, M_ret.

Ltac trace_assoc := cbn; rewrite <- ?app_assoc; cbn.

Lemma result_pair {A} (a : A) w : result (a, w) = a.
Proof. reflexivity. Qed.

Lemma after_pair {A} (a : A) w : after (a, w) = w.
Proof. reflexivity. Qed.

Lemma trace_log e w : trace (log e w) = trace w ++ [e].
Proof. reflexivity. Qed.

Lemma regmap_log e w : regmap (log e w) = regmap w.
Proof. reflexivity. Qed.

Create Rewrite HintDb driver.
#[global] Hint Rewrite @result_pair @after_pair trace_log regmap_log : driver.

Lemma emitted_app {A} (m : M A) w evs :
  trace (after (m w)) = trace w ++ evs → emitted m w = evs.
Proof. intros H. unfold emitted. rewrite H. apply drop_app_length. Qed.

Lemma reg_writes_app tr1 tr2 :
  reg_writes (tr1 ++ tr2) = reg_writes tr1 ++ reg_writes tr2.
Proof. apply omap_app. Qed.

Lemma clock_calls_app tr1 tr2 :
  clock_calls (tr1 ++ tr2) = clock_calls tr1 ++ clock_calls tr2.
Proof. apply omap_app. Qed.

Lemma reg_writes_write_events codec es :
  reg_writes (write_events codec es) = keyed codec es.
Proof. induction es as [|e es IH]; [done|]. cbn. f_equal. exact IH. Qed.

Lemma clock_calls_write_events codec es :
  clock_calls (write_events codec es) = [].
Proof. induction es as [|e es IH]; [done|]. cbn. exact IH. Qed.

(** ** The register programmer *)

Lemma trace_write_all codec es w :
  trace (write_all codec es w) = trace w ++ write_events codec es.
Proof.
  revert w. induction es as [|e es IH]; intros w; cbn.
  - by rewrite app_nil_r.
  - unfold write_all in IH. rewrite IH. cbn. by rewrite <- app_assoc.
Qed.

Lemma regmap_write_all codec es w :
  regmap (write_all codec es w)
  = foldl (λ m e, <[(codec, e.1) := e.2]> m) (regmap w) es.
Proof.
  revert w. induction es as [|e es IH]; intros w; cbn; [done|].
  unfold write_all in IH. by rewrite IH.
Qed.

Section Programmer.
Variable core : collaborators.

(** The indexed walk reads the table exactly as [profile_entries] and
    [profile_exit] do, whenever the fuel covers what is left of it. *)
Lemma set_es8328_regs_from_drop codec regs fuel :
  ∀ i w, (length (drop i regs) < fuel)%nat →
    set_es8328_regs_from core fuel codec regs i w
    = (profile_exit (drop i regs),
       write_all codec (profile_entries (drop i regs)) w).
Proof.
  induction fuel as [|fuel IH]; intros i w Hfuel; [lia|].
  cbn [set_es8328_regs_from].
  destruct (regs !! i) as [reg|] eqn:Hreg.
  - rewrite (drop_S _ _ _ Hreg) in Hfuel |- *.
    replace (i + 1)%nat with (S i) by lia.
    destruct (regs !! S i) as [val|] eqn:Hval.
    + rewrite (drop_S _ _ _ Hval) in Hfuel |- *. cbn in Hfuel. cbn.
      destruct (reg =? 255); cbn; [done|].
      run. replace (i + 2)%nat with (S (S i)) by lia.
      rewrite IH by lia. done.
    + apply lookup_ge_None in Hval. rewrite (drop_ge _ (S i)) by done. cbn.
      by destruct (reg =? 255).
  - apply lookup_ge_None in Hreg. rewrite drop_ge by done. done.
Qed.

Lemma set_es8328_regs_entries codec regs w :
  csys_audio_set_es8328_regs core codec regs w
  = (profile_exit regs, write_all codec (profile_entries regs) w).
Proof.
  unfold csys_audio_set_es8328_regs.
  rewrite set_es8328_regs_from_drop; rewrite drop_0; [done | lia].
Qed.

(** The fuel handed to the walk is never used up. *)
Lemma set_es8328_regs_terminates codec regs w :
  result (csys_audio_set_es8328_regs core codec regs w) ≠ OutOfFuel.
Proof.
  rewrite set_es8328_regs_entries, result_pair.
  cut (profile_exit regs ≠ OutOfFuel
       ∧ ∀ reg, profile_exit (reg :: regs) ≠ OutOfFuel); [tauto|].
  induction regs as [|val rest [IH1 IH2]]; split; try done.
  - intros reg. cbn. by destruct (reg =? 255).
  - intros reg. cbn [profile_exit]. by destruct (negb (reg =? 255)).
Qed.

End Programmer.

Lemma profile_entries_sentinel pre post :
  Forall (λ e : Z * Z, e.1 ≠ 0xFF) pre →
  profile_entries (table_bytes pre ++ 0xFF :: post) = pre
  ∧ profile_exit (table_bytes pre ++ 0xFF :: post) = SentinelReached.
Proof.
  induction 1 as [|[reg val] pre Hreg _ [IHe IHx]]; cbn.
  - by destruct post.
  - cbn in Hreg. apply Z.eqb_neq in Hreg. rewrite Hreg. cbn.
    by rewrite IHe, IHx.
Qed.

(** ** Register state as a map *)

Lemma foldl_insert_union (codec : component) (es : list (Z * Z)) (m : gmap (component * Z) Z) :
  foldl (λ m e, <[(codec, e.1) := e.2]> m) m es
  = list_to_map (reverse (keyed codec es)) ∪ m.
Proof.
  induction es as [|e es IH] using rev_ind; cbn.
  - by rewrite (left_id_L ∅ (∪)).
  - rewrite foldl_app. cbn. rewrite IH.
    unfold keyed. rewrite map_app, reverse_app. cbn.
    by rewrite insert_union_l.
Qed.

Lemma keyed_fst (codec : component) (es : list (Z * Z)) k :
  k ∈ (reverse (keyed codec es)).*1 ↔ ∃ reg, k = (codec, reg) ∧ reg ∈ es.*1.
Proof.
  rewrite fmap_reverse, elem_of_reverse. unfold keyed.
  rewrite !list_elem_of_fmap. split.
  - intros ([[c reg] val] & -> & Hin). cbn.
    apply list_elem_of_fmap in Hin as (e & [= -> -> ->] & He).
    exists e.1. split; [done|]. apply list_elem_of_fmap. by exists e.
  - intros (reg & -> & Hin). apply list_elem_of_fmap in Hin as (e & -> & He).
    exists (codec, e.1, e.2). split; [done|].
    apply list_elem_of_fmap. by exists e.
Qed.

(** Writing [es2] and then [es1] on top of a state already holding [es1]
    changes nothing, as long as [es2] only touches addresses of [es1]. *)
Lemma overlay_absorbed (codec : component) (es1 es2 : list (Z * Z)) (m : gmap (component * Z) Z) :
  es2.*1 ⊆ es1.*1 →
  list_to_map (reverse (keyed codec es1))
    ∪ (list_to_map (reverse (keyed codec es2))
         ∪ (list_to_map (reverse (keyed codec es1)) ∪ m))
  = list_to_map (reverse (keyed codec es1)) ∪ m.
Proof.
  intros Hsub. apply map_eq. intros k. rewrite !lookup_union.
  destruct (list_to_map (reverse (keyed codec es1)) !! k) as [v|] eqn:H1.
  - by rewrite !union_Some_l.
  - rewrite !(left_id_L None union).
    apply not_elem_of_list_to_map in H1.
    assert (k ∉ (reverse (keyed codec es2)).*1) as H2.
    { intros (reg & -> & Hin)%keyed_fst. apply H1, keyed_fst.
      exists reg. split; [done|]. by apply Hsub. }
    apply not_elem_of_list_to_map in H2. by rewrite H2, (left_id_L None union).
Qed.

Lemma quiet_within_active : QUIET.*1 ⊆ ACTIVE.*1.
Proof.
  intros reg. vm_compute. intros Hin.
  repeat (apply elem_of_cons in Hin as [->|Hin]; [set_solver|]).
  by apply elem_of_nil in Hin.
Qed.

Example quiet_entries : QUIET = [(0x2e, 0x00); (0x2f, 0x00)].
Proof. reflexivity. Qed.

Example active_entries_count : length ACTIVE = 24%nat.
Proof. reflexivity. Qed.

Lemma active_exit : profile_exit csys_es8328_regs = SentinelReached.
Proof. reflexivity. Qed.

Lemma quiet_exit : profile_exit csys_es8328_regs_quiet = SentinelReached.
Proof. reflexivity. Qed.

(** C3. For every table made of entries whose addresses differ from 0xFF,
    followed by an entry with the sentinel address 0xFF and by anything at
    all, programming the table stops at the sentinel and issues one write
    per entry before it, in table order, and no other write: neither the
    sentinel nor anything behind it reaches the codec. *)
Theorem set_es8328_regs_stops_at_sentinel (core : collaborators)
    (codec : component) (pre : list (Z * Z)) (post : list Z) (w : world) :
  Forall (λ e : Z * Z, e.1 ≠ 0xFF) pre →
  let regs := table_bytes pre ++ 0xFF :: post in
  let r := csys_audio_set_es8328_regs core codec regs w in
  result r = SentinelReached
  ∧ trace (after r) = trace w ++ write_events codec pre
  ∧ reg_writes (emitted (csys_audio_set_es8328_regs core codec regs) w)
    = keyed codec pre
  ∧ length (emitted (csys_audio_set_es8328_regs core codec regs) w)
    = length pre.
Proof.
  intros Hpre regs r. subst r.
  destruct (profile_entries_sentinel pre post Hpre) as [He Hx].
  assert (trace (after (csys_audio_set_es8328_regs core codec regs w))
          = trace w ++ write_events codec pre) as Htr.
  { rewrite set_es8328_regs_entries. subst regs. rewrite He. cbn.
    apply trace_write_all. }
  rewrite (emitted_app _ _ _ Htr). repeat split.
  - rewrite set_es8328_regs_entries. exact Hx.
  - exact Htr.
  - apply reg_writes_write_events.
  - unfold write_events. by rewrite length_map.
Qed.

(** A table whose first value byte is 0xFF and which carries entries
    behind its sentinel: only the two leading entries are written. *)
Lemma set_es8328_regs_stops_at_sentinel_witness :
  Forall (λ e : Z * Z, e.1 ≠ 0xFF) [(0x10, 0xFF); (0x11, 0x00)]
  ∧ reg_writes (emitted (csys_audio_set_es8328_regs Sample.core_ok 11%nat
        [0x10; 0xFF; 0x11; 0x00; 0xFF; 0xFF; 0x12; 0x34]) Sample.w0)
    = [(11%nat, 0x10, 0xFF); (11%nat, 0x11, 0x00)].
Proof.
  assert (Forall (λ e : Z * Z, e.1 ≠ 0xFF) [(0x10, 0xFF); (0x11, 0x00)]) as H.
  { repeat constructor; cbn; lia. }
  split; [exact H|].
  exact (proj1 (proj2 (proj2
    (set_es8328_regs_stops_at_sentinel Sample.core_ok 11%nat
       [(0x10, 0xFF); (0x11, 0x00)] [0xFF; 0x12; 0x34] Sample.w0 H)))).
Defined.

(** C4. With the codec registers as a map from address to the last value
    written, programming ACTIVE, QUIET and ACTIVE again leaves the same map
    as programming ACTIVE once; and programming any table twice leaves the
    same map as programming it once. *)
Theorem apply_profile_idempotent (core : collaborators) (codec : component)
    (w : world) :
  regmap (apply_profile core codec csys_es8328_regs
            (apply_profile core codec csys_es8328_regs_quiet
               (apply_profile core codec csys_es8328_regs w)))
  = regmap (apply_profile core codec csys_es8328_regs w)
  ∧ ∀ regs : list Z,
      regmap (apply_profile core codec regs (apply_profile core codec regs w))
      = regmap (apply_profile core codec regs w).
Proof.
  unfold apply_profile. split; [|intros regs];
    rewrite !set_es8328_regs_entries; cbn [after snd];
    rewrite !regmap_write_all, !foldl_insert_union.
  - apply overlay_absorbed, quiet_within_active.
  - by rewrite (assoc_L (∪)), (idemp_L (∪)).
Qed.

(** C9. Each of the two tables is a sequence of entries ending in one
    sentinel entry with address 0xFF, and no entry before it has address
    0xFF. Every entry of the quiet table addresses an output line-level
    register that the active table writes too, and sets it to zero. *)
Theorem tables_sentinel_terminated :
  (csys_es8328_regs = table_bytes (ACTIVE ++ [(0xFF, 0xFF)])
   ∧ table_pairs csys_es8328_regs = ACTIVE ++ [(0xFF, 0xFF)]
   ∧ Forall (λ e : Z * Z, e.1 ≠ 0xFF) ACTIVE)
  ∧ (csys_es8328_regs_quiet = table_bytes (QUIET ++ [(0xFF, 0xFF)])
     ∧ table_pairs csys_es8328_regs_quiet = QUIET ++ [(0xFF, 0xFF)]
     ∧ Forall (λ e : Z * Z, e.1 ≠ 0xFF) QUIET)
  ∧ Forall (λ e : Z * Z,
        e.1 ∈ es8328_output_volume_regs ∧ e.1 ∈ ACTIVE.*1 ∧ e.2 = 0) QUIET.
Proof.
  repeat split; try reflexivity.
  - vm_compute. repeat constructor; discriminate.
  - vm_compute. repeat constructor; discriminate.
  - vm_compute. repeat constructor; set_solver.
Qed.

(** ** The clock set-up and the callbacks, step by step *)

Section Lifecycle.
Variable core : collaborators.

Lemma set_mclk_cpu_fails rtd w :
  cpu_clock_answer core rtd w ≠ 0 →
  csys_audio_set_mclk core rtd w
  = (cpu_clock_answer core rtd w,
     log (EvDevErr (cpu_dai rtd) "Cannot set cpu MCLK\n")
       (log (cpu_clock_call rtd) w)).
Proof.
  intros H%Z.eqb_neq. unfold csys_audio_set_mclk, cpu_clock_answer in *.
  run. unfold CSYS_AUDIO_MCLK. by rewrite H.
Qed.

Lemma set_mclk_codec_fails rtd w :
  cpu_clock_answer core rtd w = 0 →
  codec_clock_answer core rtd w ≠ 0 →
  csys_audio_set_mclk core rtd w
  = (codec_clock_answer core rtd w,
     log (EvDevErr (codec_dai rtd) "Cannot set codec MCLK\n")
       (log (codec_clock_call rtd) (log (cpu_clock_call rtd) w))).
Proof.
  intros H1 H2%Z.eqb_neq.
  unfold csys_audio_set_mclk, cpu_clock_answer, codec_clock_answer in *.
  run. unfold CSYS_AUDIO_MCLK. rewrite H1. cbn.
  unfold cpu_clock_call in H2. by rewrite H2.
Qed.

Lemma set_mclk_ok rtd w :
  cpu_clock_answer core rtd w = 0 →
  codec_clock_answer core rtd w = 0 →
  csys_audio_set_mclk core rtd w
  = (0, log (codec_clock_call rtd) (log (cpu_clock_call rtd) w)).
Proof.
  intros H1 H2.
  unfold csys_audio_set_mclk, cpu_clock_answer, codec_clock_answer in *.
  run. unfold CSYS_AUDIO_MCLK. rewrite H1. cbn.
  unfold cpu_clock_call in H2. by rewrite H2.
Qed.

(** The three ways through [csys_audio_set_mclk]. *)
Lemma set_mclk_cases rtd w :
  (cpu_clock_answer core rtd w ≠ 0)
  ∨ (cpu_clock_answer core rtd w = 0 ∧ codec_clock_answer core rtd w ≠ 0)
  ∨ (cpu_clock_answer core rtd w = 0 ∧ codec_clock_answer core rtd w = 0).
Proof. lia. Qed.

Lemma set_mclk_regmap rtd w :
  regmap (after (csys_audio_set_mclk core rtd w)) = regmap w.
Proof.
  destruct (set_mclk_cases rtd w) as [H|[[H1 H2]|[H1 H2]]].
  - by rewrite set_mclk_cpu_fails.
  - by rewrite set_mclk_codec_fails.
  - by rewrite set_mclk_ok.
Qed.

Lemma set_mclk_trace rtd w :
  trace (after (csys_audio_set_mclk core rtd w))
  = trace w ++ emitted (csys_audio_set_mclk core rtd) w.
Proof.
  unfold emitted.
  destruct (set_mclk_cases rtd w) as [H|[[H1 H2]|[H1 H2]]];
    [rewrite set_mclk_cpu_fails by done
    |rewrite set_mclk_codec_fails by done
    |rewrite set_mclk_ok by done];
    trace_assoc; by rewrite drop_app_length.
Qed.

Lemma set_mclk_no_writes rtd w :
  reg_writes (emitted (csys_audio_set_mclk core rtd) w) = [].
Proof.
  unfold emitted.
  destruct (set_mclk_cases rtd w) as [H|[[H1 H2]|[H1 H2]]];
    [rewrite set_mclk_cpu_fails by done
    |rewrite set_mclk_codec_fails by done
    |rewrite set_mclk_ok by done];
    trace_assoc; by rewrite drop_app_length.
Qed.

Lemma hw_params_rejects sub params w :
  params_rate params ≠ 44100 →
  csys_audio_hw_params core sub params w = (- EINVAL, w).
Proof.
  intros H%Z.eqb_neq. unfold csys_audio_hw_params, CSYS_AUDIO_LRCLK.
  by rewrite H.
Qed.

Lemma hw_params_accepts sub params w :
  params_rate params = 44100 →
  csys_audio_hw_params core sub params w
  = csys_audio_set_mclk core (private_data sub) w.
Proof.
  intros H. unfold csys_audio_hw_params, CSYS_AUDIO_LRCLK. rewrite H. cbn.
  unfold_monad. destruct (csys_audio_set_mclk _ _ _) as [ret w1].
  destruct (Z.eqb_spec ret 0) as [->|]; done.
Qed.

Lemma startup_eq sub w :
  csys_audio_startup core sub w
  = (0, match bound_codec (private_data sub) with
        | Some codec => write_all codec ACTIVE w
        | None => w
        end).
Proof.
  unfold csys_audio_startup. destruct (bound_codec _); [|done].
  unfold_monad. by rewrite set_es8328_regs_entries.
Qed.

Lemma shutdown_eq sub w :
  csys_audio_shutdown core sub w
  = (tt, match bound_codec (private_data sub) with
         | Some codec => write_all codec QUIET w
         | None => w
         end).
Proof.
  unfold csys_audio_shutdown. destruct (bound_codec _); [|done].
  unfold_monad. by rewrite set_es8328_regs_entries.
Qed.

Lemma init_eq rtd w :
  csys_audio_init core rtd w
  = let clk := csys_audio_set_mclk core rtd w in
    if negb (result clk =? 0) then clk
    else (0, match bound_codec rtd with
             | Some codec => write_all codec QUIET (after clk)
             | None => after clk
             end).
Proof.
  unfold csys_audio_init. unfold_monad.
  destruct (csys_audio_set_mclk _ _ _) as [ret w1].
  cbn [result after fst snd].
  destruct (ret =? 0); cbn [negb]; [|done].
  destruct (bound_codec _); [|done].
  by rewrite set_es8328_regs_entries.
Qed.

Lemma stream_start_eq sub params w :
  stream_start (csys_dailink core) sub params w
  = csys_audio_hw_params core sub params
      (after (csys_audio_startup core sub w)).
Proof.
  unfold stream_start. cbn. unfold_monad. by rewrite startup_eq.
Qed.

Lemma trace_after_startup sub w :
  trace (after (csys_audio_startup core sub w))
  = trace w ++ codec_writes (private_data sub) ACTIVE.
Proof.
  rewrite startup_eq. unfold codec_writes. cbn [after snd].
  destruct (bound_codec _); [apply trace_write_all | by rewrite app_nil_r].
Qed.

Lemma trace_after_shutdown sub w :
  trace (after (csys_audio_shutdown core sub w))
  = trace w ++ codec_writes (private_data sub) QUIET.
Proof.
  rewrite shutdown_eq. unfold codec_writes. cbn [after snd].
  destruct (bound_codec _); [apply trace_write_all | by rewrite app_nil_r].
Qed.

End Lifecycle.

(** ** Clock synchronisation *)

(** C2. [csys_audio_set_mclk] asks the interface DAI for the master clock
    11289600 first and the codec DAI second. When the interface refuses,
    its error is returned and the codec is never asked; when the interface
    accepts and the codec refuses, the codec's error is returned; when both
    accept, 0 is returned. No register is written on any of these paths. *)
Theorem set_mclk_interface_then_codec (core : collaborators)
    (rtd : snd_soc_pcm_runtime) (w : world) :
  let m := csys_audio_set_mclk core rtd in
  let r1 := cpu_clock_answer core rtd w in
  let r2 := codec_clock_answer core rtd w in
  let to_cpu := (cpu_dai rtd, 0, 11289600, SND_SOC_CLOCK_OUT) in
  let to_codec := (codec_dai rtd, 0, 11289600, SND_SOC_CLOCK_OUT) in
  (r1 ≠ 0 →
     result (m w) = r1 ∧ clock_calls (emitted m w) = [to_cpu])
  ∧ (r1 = 0 → r2 ≠ 0 →
     result (m w) = r2 ∧ clock_calls (emitted m w) = [to_cpu; to_codec])
  ∧ (r1 = 0 → r2 = 0 →
     result (m w) = 0 ∧ clock_calls (emitted m w) = [to_cpu; to_codec])
  ∧ reg_writes (emitted m w) = []
  ∧ regmap (after (m w)) = regmap w.
Proof.
  cbv zeta. unfold emitted. repeat split.
  - by rewrite set_mclk_cpu_fails.
  - rewrite set_mclk_cpu_fails by done. trace_assoc.
    by rewrite drop_app_length.
  - by rewrite set_mclk_codec_fails.
  - rewrite set_mclk_codec_fails by done. trace_assoc.
    by rewrite drop_app_length.
  - by rewrite set_mclk_ok.
  - rewrite set_mclk_ok by done. trace_assoc.
    by rewrite drop_app_length.
  - apply set_mclk_no_writes.
  - apply set_mclk_regmap.
Qed.

(** The interface refuses with -5: that is the result, and the only clock
    request made is the one to the interface. The codec refuses with -22
    after the interface accepted: that is the result, and both were asked,
    the interface first. *)
Lemma set_mclk_interface_then_codec_witness :
  cpu_clock_answer Sample.core_cpu_fails Sample.rtd_codec Sample.w0 ≠ 0
  ∧ (result (csys_audio_set_mclk Sample.core_cpu_fails Sample.rtd_codec
               Sample.w0) = -5
     ∧ clock_calls (emitted (csys_audio_set_mclk Sample.core_cpu_fails
                               Sample.rtd_codec) Sample.w0)
       = [(0%nat, 0, 11289600, SND_SOC_CLOCK_OUT)])
  ∧ cpu_clock_answer Sample.core_codec_fails Sample.rtd_codec Sample.w0 = 0
  ∧ codec_clock_answer Sample.core_codec_fails Sample.rtd_codec Sample.w0 ≠ 0
  ∧ result (csys_audio_set_mclk Sample.core_codec_fails Sample.rtd_codec
              Sample.w0) = -22
  ∧ clock_calls (emitted (csys_audio_set_mclk Sample.core_codec_fails
                            Sample.rtd_codec) Sample.w0)
    = [(0%nat, 0, 11289600, SND_SOC_CLOCK_OUT);
       (1%nat, 0, 11289600, SND_SOC_CLOCK_OUT)].
Proof.
  assert (cpu_clock_answer Sample.core_cpu_fails Sample.rtd_codec Sample.w0
          ≠ 0) as H by (vm_compute; discriminate).
  assert (codec_clock_answer Sample.core_codec_fails Sample.rtd_codec
            Sample.w0 ≠ 0) as H2 by (vm_compute; discriminate).
  split; [exact H|]. split.
  - exact (proj1 (set_mclk_interface_then_codec Sample.core_cpu_fails
                    Sample.rtd_codec Sample.w0) H).
  - split; [reflexivity|]. split; [exact H2|].
    exact (proj1 (proj2 (set_mclk_interface_then_codec
                           Sample.core_codec_fails Sample.rtd_codec
                           Sample.w0)) eq_refl H2).
Defined.

(** ** Card initialisation *)

(** C5. Card initialisation starts with the clock set-up. When that
    fails, its failure is the result and the world is as the clock set-up
    left it, with no register written. When it succeeds and a codec is
    bound, the result is 0 and the registers written are those of the quiet
    table, in order, after the clock requests; they are not those of the
    active table. *)
Theorem card_init_clock_then_quiet (core : collaborators)
    (rtd : snd_soc_pcm_runtime) (w : world) :
  let clk := csys_audio_set_mclk core rtd in
  let ini := card_init (csys_dailink core) rtd in
  (result (clk w) ≠ 0 →
     ini w = clk w ∧ reg_writes (emitted ini w) = [])
  ∧ (result (clk w) = 0 → ∀ codec, bound_codec rtd = Some codec →
     result (ini w) = 0
     ∧ emitted ini w = emitted clk w ++ write_events codec QUIET
     ∧ reg_writes (emitted ini w) = [(codec, 0x2e, 0); (codec, 0x2f, 0)]
     ∧ reg_writes (emitted ini w) ≠ keyed codec ACTIVE).
Proof.
  cbv zeta. unfold card_init. cbn [init csys_dailink]. split.
  - intros H%Z.eqb_neq. unfold emitted. rewrite init_eq. cbv zeta.
    rewrite H. cbn [negb]. split; [done | apply set_mclk_no_writes].
  - intros H codec Hcodec.
    assert (trace (after (csys_audio_init core rtd w))
            = trace w ++ (emitted (csys_audio_set_mclk core rtd) w
                          ++ write_events codec QUIET)) as Htr.
    { rewrite init_eq. cbv zeta. rewrite H, Hcodec. cbn [negb Z.eqb].
      rewrite after_pair, trace_write_all.
      by rewrite set_mclk_trace, <- app_assoc. }
    rewrite (emitted_app _ _ _ Htr).
    rewrite reg_writes_app, set_mclk_no_writes, reg_writes_write_events.
    repeat split.
    + rewrite init_eq. cbv zeta. by rewrite H.
    + vm_compute. discriminate.
Qed.

(** With every request accepted and component 11 bound as the codec, card
    initialisation writes 0 to the registers 0x2e and 0x2f of component
    11, and nothing else. *)
Lemma card_init_clock_then_quiet_witness :
  result (csys_audio_set_mclk Sample.core_ok Sample.rtd_codec Sample.w0) = 0
  ∧ bound_codec Sample.rtd_codec = Some 11%nat
  ∧ reg_writes (emitted (card_init (csys_dailink Sample.core_ok)
                           Sample.rtd_codec) Sample.w0)
    = [(11%nat, 0x2e, 0); (11%nat, 0x2f, 0)].
Proof.
  assert (result (csys_audio_set_mclk Sample.core_ok Sample.rtd_codec
                    Sample.w0) = 0) as H by reflexivity.
  assert (bound_codec Sample.rtd_codec = Some 11%nat) as Hc by reflexivity.
  split; [exact H|]. split; [exact Hc|].
  exact (proj1 (proj2 (proj2
    (proj2 (card_init_clock_then_quiet Sample.core_ok Sample.rtd_codec
              Sample.w0) H 11%nat Hc)))).
Defined.

(** ** Stream stop *)

(** C7. Stopping a stream returns nothing that could carry an error, and
    in every world, whatever happened before, it writes the quiet table to
    the bound codec: after a stream start that was accepted as well as
    after one that was rejected. It makes no clock request. *)
Theorem stream_stop_always_quiet (core : collaborators)
    (sub : snd_pcm_substream) (w : world) :
  let stop := stream_stop (csys_dailink core) sub in
  result (stop w) = tt
  ∧ clock_calls (emitted stop w) = []
  ∧ ∀ codec, bound_codec (private_data sub) = Some codec →
      emitted stop w = write_events codec QUIET
      ∧ reg_writes (emitted stop w) = [(codec, 0x2e, 0); (codec, 0x2f, 0)]
      ∧ after (stop w) = write_all codec QUIET w
      ∧ ∀ params,
          emitted stop
            (after (stream_start (csys_dailink core) sub params w))
          = write_events codec QUIET.
Proof.
  cbv zeta. unfold stream_stop. cbn [shutdown ops csys_dailink rk_ops].
  assert (∀ w', emitted (csys_audio_shutdown core sub) w'
                = codec_writes (private_data sub) QUIET) as Hem.
  { intros w'. apply emitted_app, trace_after_shutdown. }
  split; [by destruct (result _)|]. split.
  - rewrite Hem. unfold codec_writes.
    destruct (bound_codec _); [apply clock_calls_write_events | done].
  - intros codec Hcodec. rewrite !Hem. unfold codec_writes.
    rewrite Hcodec. repeat split.
    + by rewrite shutdown_eq, Hcodec.
    + intros params. rewrite Hem. unfold codec_writes. by rewrite Hcodec.
Qed.

(** After a rejected 48000 Hz stream start on the sample link, the stop
    still writes 0 to the registers 0x2e and 0x2f of the codec. *)
Lemma stream_stop_always_quiet_witness :
  bound_codec (private_data Sample.sub_codec) = Some 11%nat
  ∧ emitted (stream_stop (csys_dailink Sample.core_ok) Sample.sub_codec)
      (after (stream_start (csys_dailink Sample.core_ok) Sample.sub_codec
                Sample.rate_48000 Sample.w0))
    = [EvWrite 11%nat 0x2e 0; EvWrite 11%nat 0x2f 0].
Proof.
  assert (bound_codec (private_data Sample.sub_codec) = Some 11%nat) as Hc
    by reflexivity.
  split; [exact Hc|].
  exact (proj2 (proj2 (proj2
    (proj2 (proj2 (stream_stop_always_quiet Sample.core_ok Sample.sub_codec
                     Sample.w0)) 11%nat Hc))) Sample.rate_48000).
Defined.

(** ** Stream start *)

(** C10. The [startup] callback of the link is [csys_audio_startup]; it
    returns 0 in every world, with or without a codec, after writing the
    active table to the bound codec, and a stream start validates the
    sample rate only in the world that [startup] leaves behind. *)
Theorem startup_never_fails (core : collaborators)
    (sub : snd_pcm_substream) (w : world) :
  startup (ops (csys_dailink core)) = csys_audio_startup core
  ∧ result (csys_audio_startup core sub w) = 0
  ∧ emitted (csys_audio_startup core sub) w
    = codec_writes (private_data sub) ACTIVE
  ∧ ∀ params,
      stream_start (csys_dailink core) sub params w
      = csys_audio_hw_params core sub params
          (after (csys_audio_startup core sub w)).
Proof.
  split; [reflexivity|]. split; [by rewrite startup_eq|]. split.
  - apply emitted_app, trace_after_startup.
  - intros params. apply stream_start_eq.
Qed.

(** Against C1 as stated. On the sample link a 48000 Hz request is
    refused with -EINVAL, yet the 24 entries of the active table have been
    written to the codec by then: the stream start as a whole is not free
    of register writes. *)
Lemma stream_start_rejected_after_writes :
  ¬ (params_rate Sample.rate_48000 ≠ 44100 →
     result (stream_start (csys_dailink Sample.core_ok) Sample.sub_codec
               Sample.rate_48000 Sample.w0) = - EINVAL
     ∧ clock_calls (emitted (stream_start (csys_dailink Sample.core_ok)
                               Sample.sub_codec Sample.rate_48000)
                      Sample.w0) = []
     ∧ reg_writes (emitted (stream_start (csys_dailink Sample.core_ok)
                              Sample.sub_codec Sample.rate_48000)
                     Sample.w0) = []).
Proof.
  intros H.
  assert (params_rate Sample.rate_48000 ≠ 44100) as Hrate
    by (vm_compute; discriminate).
  destruct (H Hrate) as (_ & _ & Hwrites).
  vm_compute in Hwrites. discriminate Hwrites.
Qed.

(** C1, as the driver has it. For a sample rate other than 44100 the
    [hw_params] step returns -EINVAL and leaves the world as it found it;
    the stream start as a whole returns -EINVAL and makes no clock request,
    and what it has done by then is what [startup] did before the rate was
    looked at: the writes of the active table to the bound codec, or nothing
    without a codec. *)
Theorem stream_start_rejects_other_rates (core : collaborators)
    (sub : snd_pcm_substream) (params : snd_pcm_hw_params) (w : world) :
  params_rate params ≠ 44100 →
  let start := stream_start (csys_dailink core) sub params in
  (∀ w', csys_audio_hw_params core sub params w' = (- EINVAL, w'))
  ∧ result (start w) = - EINVAL
  ∧ clock_calls (emitted start w) = []
  ∧ emitted start w = codec_writes (private_data sub) ACTIVE
  ∧ after (start w) = after (csys_audio_startup core sub w).
Proof.
  intros Hrate start. subst start.
  assert (emitted (stream_start (csys_dailink core) sub params) w
          = codec_writes (private_data sub) ACTIVE) as Hem.
  { apply emitted_app. rewrite stream_start_eq, hw_params_rejects by done.
    rewrite after_pair. apply trace_after_startup. }
  rewrite Hem, stream_start_eq, hw_params_rejects by done.
  repeat split.
  - intros w'. by apply hw_params_rejects.
  - unfold codec_writes.
    destruct (bound_codec _); [apply clock_calls_write_events | done].
Qed.

Lemma stream_start_rejects_other_rates_witness :
  params_rate Sample.rate_48000 ≠ 44100
  ∧ result (stream_start (csys_dailink Sample.core_ok) Sample.sub_no_codec
              Sample.rate_48000 Sample.w0) = -22
  ∧ emitted (stream_start (csys_dailink Sample.core_ok) Sample.sub_no_codec
               Sample.rate_48000) Sample.w0 = [].
Proof.
  assert (params_rate Sample.rate_48000 ≠ 44100) as H
    by (vm_compute; discriminate).
  split; [exact H|].
  pose proof (stream_start_rejects_other_rates Sample.core_ok
                Sample.sub_no_codec Sample.rate_48000 Sample.w0 H)
    as (_ & Hres & _ & Hem & _).
  split; [exact Hres | exact Hem].
Defined.

(** Against C6 as stated. On the sample link, with every request
    accepted, a 44100 Hz stream start writes the active table first and
    asks for the clock afterwards: its first request is the register write (0x00, 0x35) and its last one
    the clock request to the codec DAI. And when the interface refuses the
    clock, the same stream start fails with the interface's error. *)
Lemma stream_start_writes_before_clock :
  ¬ (params_rate Sample.rate_44100 = 44100 →
     emitted (stream_start (csys_dailink Sample.core_ok) Sample.sub_codec
                Sample.rate_44100) Sample.w0
     = [cpu_clock_call Sample.rtd_codec; codec_clock_call Sample.rtd_codec]
       ++ write_events 11%nat ACTIVE)
  ∧ head (emitted (stream_start (csys_dailink Sample.core_ok)
                     Sample.sub_codec Sample.rate_44100) Sample.w0)
    = Some (EvWrite 11%nat 0x00 0x35)
  ∧ last (emitted (stream_start (csys_dailink Sample.core_ok)
                     Sample.sub_codec Sample.rate_44100) Sample.w0)
    = Some (codec_clock_call Sample.rtd_codec)
  ∧ ¬ (params_rate Sample.rate_44100 = 44100 →
       result (stream_start (csys_dailink Sample.core_cpu_fails)
                 Sample.sub_codec Sample.rate_44100 Sample.w0) = 0).
Proof.
  repeat split.
  - intros H. specialize (H eq_refl). vm_compute in H. discriminate H.
  - intros H. specialize (H eq_refl). vm_compute in H. discriminate H.
Qed.

(** C6, as the driver has it. A stream start at 44100 Hz first runs
    [startup], which writes the active table to the bound codec, and then
    is exactly one run of the clock set-up in the world so reached. When
    the interface and the codec both accept the clock, the stream start
    returns 0 and its requests are, in order: the writes of the active table
    (none without a codec), the clock request to the interface, the clock
    request to the codec. *)
Theorem stream_start_supported_rate (core : collaborators)
    (sub : snd_pcm_substream) (params : snd_pcm_hw_params) (w : world) :
  params_rate params = 44100 →
  let rtd := private_data sub in
  let start := stream_start (csys_dailink core) sub params in
  let w1 := after (csys_audio_startup core sub w) in
  trace w1 = trace w ++ codec_writes rtd ACTIVE
  ∧ start w = csys_audio_set_mclk core rtd w1
  ∧ (cpu_clock_answer core rtd w1 = 0 →
     codec_clock_answer core rtd w1 = 0 →
     result (start w) = 0
     ∧ emitted start w
       = codec_writes rtd ACTIVE
         ++ [cpu_clock_call rtd; codec_clock_call rtd]).
Proof.
  intros Hrate rtd start w1. subst rtd start w1.
  split; [apply trace_after_startup|].
  split; [by rewrite stream_start_eq, hw_params_accepts|].
  intros H1 H2. split.
  - by rewrite stream_start_eq, hw_params_accepts, set_mclk_ok.
  - apply emitted_app.
    rewrite stream_start_eq, hw_params_accepts, set_mclk_ok by done.
    autorewrite with driver. rewrite trace_after_startup.
    by rewrite <- !app_assoc.
Qed.

Lemma stream_start_supported_rate_witness :
  params_rate Sample.rate_44100 = 44100
  ∧ result (stream_start (csys_dailink Sample.core_ok) Sample.sub_codec
              Sample.rate_44100 Sample.w0) = 0
  ∧ emitted (stream_start (csys_dailink Sample.core_ok) Sample.sub_codec
               Sample.rate_44100) Sample.w0
    = write_events 11%nat ACTIVE
      ++ [EvSetSysclk 0%nat 0 11289600 SND_SOC_CLOCK_OUT;
          EvSetSysclk 1%nat 0 11289600 SND_SOC_CLOCK_OUT].
Proof.
  split; [reflexivity|].
  exact (proj2 (proj2
    (stream_start_supported_rate Sample.core_ok Sample.sub_codec
       Sample.rate_44100 Sample.w0 eq_refl)) eq_refl eq_refl).
Defined.

(** ** Links without a codec *)

(** Against C8 as stated. Without a codec and with every clock request
    accepted, a 48000 Hz stream start still fails: the rate check refuses
    it, and no clock request was even made. *)
Lemma stream_start_no_codec_rejects_rate :
  ¬ (bound_codec Sample.rtd_no_codec = None →
     result (stream_start (csys_dailink Sample.core_ok) Sample.sub_no_codec
               Sample.rate_48000 Sample.w0) = 0
     ∨ ∃ d id freq dir w,
         sysclk_result Sample.core_ok d id freq dir w ≠ 0).
Proof.
  intros H. destruct (H eq_refl) as [Hres|(d & id & freq & dir & w & Hclk)].
  - vm_compute in Hres. discriminate Hres.
  - by apply Hclk.
Qed.

(** C8, as the driver has it. On a link without a bound codec no lifecycle
    event writes a register. Card initialisation is the clock set-up and
    nothing more; a stream start is the clock set-up at 44100 Hz and the
    refusal -EINVAL, with the world untouched, at any other rate; a stream
    stop does nothing and returns nothing. The clock set-up returns 0 unless
    the interface or the codec refuses the clock. *)
Theorem no_codec_no_register_write (core : collaborators)
    (sub : snd_pcm_substream) (params : snd_pcm_hw_params) (w : world) :
  bound_codec (private_data sub) = None →
  let rtd := private_data sub in
  let link := csys_dailink core in
  (card_init link rtd w = csys_audio_set_mclk core rtd w
   ∧ reg_writes (emitted (card_init link rtd) w) = [])
  ∧ ((params_rate params = 44100 →
      stream_start link sub params w = csys_audio_set_mclk core rtd w)
     ∧ (params_rate params ≠ 44100 →
        stream_start link sub params w = (- EINVAL, w))
     ∧ reg_writes (emitted (stream_start link sub params) w) = [])
  ∧ stream_stop link sub w = (tt, w)
  ∧ (result (csys_audio_set_mclk core rtd w) = 0
     ∨ result (csys_audio_set_mclk core rtd w) = cpu_clock_answer core rtd w
       ∧ cpu_clock_answer core rtd w ≠ 0
     ∨ result (csys_audio_set_mclk core rtd w) = codec_clock_answer core rtd w
       ∧ codec_clock_answer core rtd w ≠ 0).
Proof.
  intros Hnone rtd link. subst rtd link.
  assert (csys_audio_startup core sub w = (0, w)) as Hup
    by (by rewrite startup_eq, Hnone).
  assert (card_init (csys_dailink core) (private_data sub) w
          = csys_audio_set_mclk core (private_data sub) w) as Hinit.
  { unfold card_init. cbn [init csys_dailink]. rewrite init_eq. cbv zeta.
    rewrite Hnone.
    destruct (csys_audio_set_mclk _ _ _) as [ret w1]. cbn [result after fst snd].
    destruct (Z.eqb_spec ret 0) as [->|]; done. }
  assert (stream_start (csys_dailink core) sub params w
          = csys_audio_hw_params core sub params w) as Hstart.
  { by rewrite stream_start_eq, Hup. }
  repeat split.
  - exact Hinit.
  - unfold emitted. rewrite Hinit. apply set_mclk_no_writes.
  - intros Hrate. by rewrite Hstart, hw_params_accepts.
  - intros Hrate. by rewrite Hstart, hw_params_rejects.
  - unfold emitted. rewrite Hstart.
    destruct (Z.eq_dec (params_rate params) 44100) as [Hrate|Hrate].
    + rewrite hw_params_accepts by done. apply set_mclk_no_writes.
    + rewrite hw_params_rejects by done. rewrite after_pair.
      by rewrite drop_all.
  - unfold stream_stop. cbn [shutdown ops csys_dailink rk_ops].
    by rewrite shutdown_eq, Hnone.
  - destruct (set_mclk_cases core (private_data sub) w)
      as [H|[[H1 H2]|[H1 H2]]].
    + right. left. by rewrite set_mclk_cpu_fails.
    + right. right. by rewrite set_mclk_codec_fails.
    + left. by rewrite set_mclk_ok.
Qed.

(** The sample link with a null codec slot: card initialisation and a
    44100 Hz stream start write no register, and a stream stop leaves the
    world as it was. *)
Lemma no_codec_no_register_write_witness :
  bound_codec (private_data Sample.sub_no_codec) = None
  ∧ reg_writes (emitted (card_init (csys_dailink Sample.core_ok)
                           Sample.rtd_no_codec) Sample.w0) = []
  ∧ reg_writes (emitted (stream_start (csys_dailink Sample.core_ok)
                           Sample.sub_no_codec Sample.rate_44100)
                  Sample.w0) = []
  ∧ stream_stop (csys_dailink Sample.core_ok) Sample.sub_no_codec Sample.w0
    = (tt, Sample.w0).
Proof.
  split; [reflexivity|].
  pose proof (no_codec_no_register_write Sample.core_ok Sample.sub_no_codec
                Sample.rate_44100 Sample.w0 eq_refl)
    as ((_ & Hinit) & (_ & _ & Hstart) & Hstop & _).
  split; [exact Hinit|]. split; [exact Hstart | exact Hstop].
Defined.

(** * Further properties of the driver *)

(** ** Tables without a sentinel, bus errors, register contents *)

Lemma list_pair_ind (P : list Z → Prop) :
  P [] → (∀ a, P [a]) → (∀ a b l, P l → P (a :: b :: l)) → ∀ l, P l.
Proof.
  intros Hnil Hone Hstep l.
  cut (P l ∧ ∀ a, P (a :: l)); [tauto|].
  induction l as [|b l [IH1 IH2]]; split; auto.
Qed.

Lemma profile_exit_sentinel_iff regs :
  profile_exit regs = SentinelReached
  ↔ ∃ i, regs !! (2 * i)%nat = Some 0xFF.
Proof.
  induction regs as [|a|a b l IH] using list_pair_ind.
  - split; [done | by intros [i Hi]].
  - cbn. destruct (Z.eqb_spec a 255) as [->|Hne]; cbn; split; try done.
    + by exists 0%nat.
    + intros [[|i] Hi]; cbn in Hi; [congruence|].
      replace (i + S (i + 0))%nat with (S (i + i)) in Hi by lia. done.
  - cbn [profile_exit]. destruct (Z.eqb_spec a 255) as [->|Hne]; cbn [negb].
    + split; [by exists 0%nat | done].
    + rewrite IH. split.
      * intros [i Hi]. exists (S i).
        replace (2 * S i)%nat with (S (S (2 * i))) by lia. exact Hi.
      * intros [[|i] Hi]; [cbn in Hi; congruence|].
        exists i. replace (2 * S i)%nat with (S (S (2 * i))) in Hi by lia.
        exact Hi.
Qed.

Lemma profile_exit_cases regs :
  profile_exit regs = SentinelReached ∨ profile_exit regs = ReadPastEnd.
Proof.
  induction regs as [|a|a b l IH] using list_pair_ind; cbn [profile_exit].
  - by right.
  - destruct (negb _); auto.
  - destruct (negb _); auto.
Qed.

Lemma profile_entries_overrun regs :
  profile_exit regs = ReadPastEnd → profile_entries regs = table_pairs regs.
Proof.
  induction regs as [|a|a b l IH] using list_pair_ind; try done.
  cbn [profile_exit profile_entries table_pairs].
  destruct (negb _); [|done]. intros H. by rewrite IH.
Qed.

(** X1. The walk of [csys_audio_set_es8328_regs] ends at a sentinel
    exactly when some even index of the table holds 0xFF. Otherwise it
    reads past the end of the array, and by then it has written every
    complete (address, value) pair of the table, a byte 0xFF in a value
    position included. *)
Theorem set_es8328_regs_exit (core : collaborators) (codec : component)
    (regs : list Z) (w : world) :
  let m := csys_audio_set_es8328_regs core codec regs in
  (result (m w) = SentinelReached ↔ ∃ i, regs !! (2 * i)%nat = Some 0xFF)
  ∧ (result (m w) = ReadPastEnd
     ↔ ∀ i reg, regs !! (2 * i)%nat = Some reg → reg ≠ 0xFF)
  ∧ (result (m w) = ReadPastEnd →
     reg_writes (emitted m w) = keyed codec (table_pairs regs)).
Proof.
  cbv zeta. rewrite set_es8328_regs_entries, result_pair.
  pose proof (profile_exit_sentinel_iff regs) as Hiff.
  split; [exact Hiff|]. split.
  - split.
    + intros Hexit i reg Hi ->.
      assert (profile_exit regs = SentinelReached) as Hs
        by (apply Hiff; by exists i).
      congruence.
    + intros Hall. destruct (profile_exit_cases regs) as [Hs|]; [|done].
      apply Hiff in Hs as [i Hi]. by destruct (Hall i _ Hi).
  - intros Hexit.
    assert (trace (after (csys_audio_set_es8328_regs core codec regs w))
            = trace w ++ write_events codec (table_pairs regs)) as Htr.
    { rewrite set_es8328_regs_entries, after_pair, trace_write_all.
      by rewrite profile_entries_overrun. }
    rewrite (emitted_app _ _ _ Htr). apply reg_writes_write_events.
Qed.

(** A table whose only 0xFF sits in a value position: the walk writes
    both pairs and runs off the array. *)
Lemma set_es8328_regs_exit_witness :
  result (csys_audio_set_es8328_regs Sample.core_ok 11%nat
            [0x10; 0xFF; 0x11; 0x00] Sample.w0) = ReadPastEnd
  ∧ reg_writes (emitted (csys_audio_set_es8328_regs Sample.core_ok 11%nat
                           [0x10; 0xFF; 0x11; 0x00]) Sample.w0)
    = [(11%nat, 0x10, 0xFF); (11%nat, 0x11, 0x00)].
Proof.
  split; [reflexivity|].
  exact (proj2 (proj2 (set_es8328_regs_exit Sample.core_ok 11%nat
                         [0x10; 0xFF; 0x11; 0x00] Sample.w0)) eq_refl).
Defined.

Lemma foldl_insert_lookup_other (codec : component) (es : list (Z * Z))
    (m : gmap (component * Z) Z) (c : component) (a : Z) :
  c ≠ codec ∨ a ∉ es.*1 →
  foldl (λ m e, <[(codec, e.1) := e.2]> m) m es !! (c, a) = m !! (c, a).
Proof.
  revert m. induction es as [|e es IH]; intros m Hout; [done|].
  cbn [foldl]. rewrite IH.
  - apply lookup_insert_ne. intros [= <- <-].
    destruct Hout as [Hc|Ha]; [done|]. apply Ha. cbn. left.
  - destruct Hout as [Hc|Ha]; [by left|]. right.
    intros Hin. apply Ha. cbn. by right.
Qed.

Lemma foldl_insert_lookup_last (codec : component) (es1 es2 : list (Z * Z))
    (m : gmap (component * Z) Z) (a v : Z) :
  a ∉ es2.*1 →
  foldl (λ m e, <[(codec, e.1) := e.2]> m) m (es1 ++ (a, v) :: es2)
    !! (codec, a) = Some v.
Proof.
  intros Hlast. rewrite foldl_app. cbn [foldl].
  rewrite foldl_insert_lookup_other by (by right).
  apply lookup_insert_eq.
Qed.

(** X2. Programming a table changes no register of another component
    and no register whose address the table does not name before its
    sentinel. *)
Theorem apply_profile_frame (core : collaborators) (codec : component)
    (regs : list Z) (w : world) (c : component) (a : Z) :
  c ≠ codec ∨ a ∉ (profile_entries regs).*1 →
  regmap (apply_profile core codec regs w) !! (c, a) = regmap w !! (c, a).
Proof.
  intros Hout. unfold apply_profile.
  rewrite set_es8328_regs_entries, after_pair, regmap_write_all.
  by apply foldl_insert_lookup_other.
Qed.

(** Writing the quiet table to component 11 leaves register 0x2e of
    component 10 and register 0x30 of component 11 as they were. *)
Lemma apply_profile_frame_witness :
  regmap (apply_profile Sample.core_ok 11%nat csys_es8328_regs_quiet Sample.w0)
    !! (10%nat, 0x2e) = regmap Sample.w0 !! (10%nat, 0x2e)
  ∧ regmap (apply_profile Sample.core_ok 11%nat csys_es8328_regs_quiet
              Sample.w0) !! (11%nat, 0x30)
    = regmap Sample.w0 !! (11%nat, 0x30).
Proof.
  split.
  - apply (apply_profile_frame Sample.core_ok 11%nat csys_es8328_regs_quiet
             Sample.w0 10%nat 0x2e). left. lia.
  - apply (apply_profile_frame Sample.core_ok 11%nat csys_es8328_regs_quiet
             Sample.w0 11%nat 0x30). right.
    change ((0x30 : Z) ∉ [(0x2e : Z); (0x2f : Z)]).
    rewrite !not_elem_of_cons. repeat split; [lia | lia |].
    apply not_elem_of_nil.
Defined.

(** X3. After programming a table, a register holds the value of the
    last entry before the sentinel that names its address: an entry
    (a, v) followed by no other entry for [a] leaves [v] in register [a],
    whatever earlier entries wrote there. *)
Theorem apply_profile_last_write (core : collaborators) (codec : component)
    (regs : list Z) (w : world) (es1 es2 : list (Z * Z)) (a v : Z) :
  profile_entries regs = es1 ++ (a, v) :: es2 →
  a ∉ es2.*1 →
  regmap (apply_profile core codec regs w) !! (codec, a) = Some v.
Proof.
  intros Hes Hlast. unfold apply_profile.
  rewrite set_es8328_regs_entries, after_pair, regmap_write_all, Hes.
  by apply foldl_insert_lookup_last.
Qed.

(** A table that names address 0x10 twice: the second value stays. *)
Lemma apply_profile_last_write_witness :
  regmap (apply_profile Sample.core_ok 11%nat
            [0x10; 0x01; 0x11; 0x07; 0x10; 0x02; 0xFF; 0xFF] Sample.w0)
    !! (11%nat, 0x10) = Some 0x02.
Proof.
  apply (apply_profile_last_write Sample.core_ok 11%nat
           [0x10; 0x01; 0x11; 0x07; 0x10; 0x02; 0xFF; 0xFF] Sample.w0
           [(0x10, 0x01); (0x11, 0x07)] [] 0x10 0x02).
  - reflexivity.
  - cbn. apply not_elem_of_nil.
Defined.

(** ** Sequences of callbacks *)

Lemma bound_codec_Some rtd codec :
  bound_codec rtd = Some codec
  ↔ num_components rtd = 3 ∧ components rtd !! 1%nat = Some (Some codec).
Proof.
  unfold bound_codec. destruct (Z.eqb_spec (num_components rtd) 3) as [->|Hn].
  - destruct (components rtd !! 1%nat) as [[c|]|]; split;
      first [by intros [= ->] | by intros [_ [= ->]] | done | by intros [_ [=]]].
  - split; [done | by intros [? _]].
Qed.

Lemma clock_blocks_app rtd calls1 calls2 :
  clock_blocks rtd calls1 → clock_blocks rtd calls2 →
  clock_blocks rtd (calls1 ++ calls2).
Proof.
  induction 1 as [|calls _ IH|calls _ IH]; intros H2; cbn;
    [exact H2 | apply blocks_cpu, IH, H2 | apply blocks_both, IH, H2].
Qed.

Lemma codec_writes_requests rtd es :
  (∀ e, e ∈ es → e ∈ ACTIVE ∨ e ∈ QUIET) →
  Forall (link_request rtd) (codec_writes rtd es).
Proof.
  intros Hes. unfold codec_writes.
  destruct (bound_codec rtd) as [codec|] eqn:Hcodec; [|constructor].
  apply bound_codec_Some in Hcodec as [Hn Hc].
  unfold write_events. apply Forall_forall. intros ev Hev.
  apply list_elem_of_fmap in Hev as ([reg val] & -> & He).
  cbn. auto.
Qed.

Lemma codec_writes_no_clock rtd es : clock_calls (codec_writes rtd es) = [].
Proof.
  unfold codec_writes. destruct (bound_codec rtd); [|done].
  apply clock_calls_write_events.
Qed.


Lemma link_step_refl rtd w : link_step rtd w w.
Proof.
  split; [|done]. exists []. rewrite app_nil_r.
  repeat split; constructor.
Qed.

Lemma link_step_trans rtd w1 w2 w3 :
  link_step rtd w1 w2 → link_step rtd w2 w3 → link_step rtd w1 w3.
Proof.
  intros [(evs1 & Ht1 & Hr1 & Hb1) Hf1] [(evs2 & Ht2 & Hr2 & Hb2) Hf2].
  split.
  - exists (evs1 ++ evs2). rewrite Ht2, Ht1, app_assoc. repeat split.
    + by apply Forall_app.
    + rewrite clock_calls_app. by apply clock_blocks_app.
  - intros c a Hout. by rewrite Hf2, Hf1.
Qed.

Lemma write_table_step rtd es w :
  (∀ e, e ∈ es → e ∈ ACTIVE ∨ e ∈ QUIET) →
  link_step rtd w
    match bound_codec rtd with
    | Some codec => write_all codec es w
    | None => w
    end.
Proof.
  intros Hes. destruct (bound_codec rtd) as [codec|] eqn:Hcodec;
    [|apply link_step_refl].
  split.
  - exists (codec_writes rtd es). repeat split.
    + unfold codec_writes. rewrite Hcodec. apply trace_write_all.
    + by apply codec_writes_requests.
    + rewrite codec_writes_no_clock. constructor.
  - intros c a Hout. rewrite regmap_write_all.
    apply foldl_insert_lookup_other.
    destruct Hout as [Hc|Ha]; [left; congruence|]. right.
    intros Hin. apply Ha.
    apply list_elem_of_fmap in Hin as ([reg val] & -> & He).
    destruct (Hes _ He) as [HA|HQ].
    + apply list_elem_of_fmap. by exists (reg, val).
    + apply quiet_within_active, list_elem_of_fmap. by exists (reg, val).
Qed.

Section Sessions.
Variable core : collaborators.

Lemma set_mclk_step rtd w :
  link_step rtd w (after (csys_audio_set_mclk core rtd w)).
Proof.
  split; [|intros c a _; by rewrite set_mclk_regmap].
  destruct (set_mclk_cases core rtd w) as [H|[[H1 H2]|[H1 H2]]];
    [rewrite set_mclk_cpu_fails by done
    |rewrite set_mclk_codec_fails by done
    |rewrite set_mclk_ok by done];
    rewrite after_pair; eexists; (split; [trace_assoc; reflexivity|]);
    (split; [repeat (apply List.Forall_cons; [cbn; intuition reflexivity|]);
             apply List.Forall_nil|]); cbn.
  - apply blocks_cpu, blocks_nil.
  - apply blocks_both, blocks_nil.
  - apply blocks_both, blocks_nil.
Qed.

Lemma invoke_step rtd cb w :
  link_step rtd w (after (invoke (csys_dailink core) rtd cb w)).
Proof.
  destruct cb as [| |params|]; cbn [invoke init ops startup hw_params shutdown
                                    csys_dailink rk_ops].
  - rewrite init_eq. cbv zeta.
    destruct (negb _); [apply set_mclk_step|]. rewrite after_pair.
    eapply link_step_trans; [apply set_mclk_step|].
    apply write_table_step. auto.
  - rewrite startup_eq, after_pair. apply write_table_step. auto.
  - destruct (Z.eq_dec (params_rate params) 44100) as [Hrate|Hrate].
    + rewrite hw_params_accepts by done. apply set_mclk_step.
    + rewrite hw_params_rejects by done. apply link_step_refl.
  - unfold_monad. rewrite shutdown_eq. rewrite after_pair.
    apply (write_table_step _ QUIET). auto.
Qed.

Lemma session_step rtd cbs :
  ∀ w, link_step rtd w (after (session (csys_dailink core) rtd cbs w)).
Proof.
  induction cbs as [|cb cbs IH]; intros w; [apply link_step_refl|].
  cbn [session]. unfold_monad.
  pose proof (invoke_step rtd cb w) as Hcb.
  destruct (invoke _ _ _ _) as [ret w1]. rewrite after_pair in Hcb.
  eapply link_step_trans; [exact Hcb | apply IH].
Qed.

Lemma session_trace rtd cbs w evs :
  trace (after (session (csys_dailink core) rtd cbs w)) = trace w ++ evs →
  emitted (session (csys_dailink core) rtd cbs) w = evs.
Proof. apply emitted_app. Qed.

End Sessions.

(** X4. Whatever callbacks the core invokes on the link, in whatever
    order and with whatever parameters, every register write goes to the
    second component of a three-component runtime and carries an entry of
    the active or of the quiet table, and every clock request is for clock
    id 0 at 11289600 Hz, direction out, on the interface or the codec DAI
    of the runtime. *)
Theorem session_requests (core : collaborators) (rtd : snd_soc_pcm_runtime)
    (cbs : list callback) (w : world) :
  Forall (link_request rtd) (emitted (session (csys_dailink core) rtd cbs) w).
Proof.
  destruct (session_step core rtd cbs w) as [(evs & Htr & Hreq & _) _].
  by rewrite (session_trace _ _ _ _ _ Htr).
Qed.

(** X5. In any sequence of callbacks the clock requests come in blocks:
    one to the interface DAI, or one to the interface DAI directly
    followed by one to the codec DAI. The codec DAI is never asked
    first. *)
Theorem session_clock_blocks (core : collaborators)
    (rtd : snd_soc_pcm_runtime) (cbs : list callback) (w : world) :
  clock_blocks rtd
    (clock_calls (emitted (session (csys_dailink core) rtd cbs) w)).
Proof.
  destruct (session_step core rtd cbs w) as [(evs & Htr & _ & Hblocks) _].
  by rewrite (session_trace _ _ _ _ _ Htr).
Qed.

(** X6. No sequence of callbacks changes a register of a component
    other than the bound codec, nor a register of the bound codec whose
    address is not one of the 24 addresses of the active table. *)
Theorem session_frame (core : collaborators) (rtd : snd_soc_pcm_runtime)
    (cbs : list callback) (w : world) (c : component) (a : Z) :
  bound_codec rtd ≠ Some c ∨ a ∉ ACTIVE.*1 →
  regmap (after (session (csys_dailink core) rtd cbs w)) !! (c, a)
  = regmap w !! (c, a).
Proof.
  intros Hout. by apply (session_step core rtd cbs w).
Qed.

(** One stream life on the sample link, with every bus write failing:
    component 10 is not the codec, so its register 0x2e is as before. *)
Lemma session_frame_witness :
  bound_codec Sample.rtd_codec ≠ Some 10%nat
  ∧ regmap (after (session (csys_dailink Faulty.core_bus_fails)
                     Sample.rtd_codec Faulty.one_stream Sample.w0))
      !! (10%nat, 0x2e) = regmap Sample.w0 !! (10%nat, 0x2e).
Proof.
  assert (bound_codec Sample.rtd_codec ≠ Some 10%nat) as H
    by (vm_compute; discriminate).
  split; [exact H|].
  exact (session_frame Faulty.core_bus_fails Sample.rtd_codec
           Faulty.one_stream Sample.w0 10%nat 0x2e (or_introl H)).
Defined.

(** ** Register contents across a stream *)

Lemma entries_split_last (es : list (Z * Z)) (a v : Z) :
  NoDup es.*1 → (a, v) ∈ es →
  ∃ es1 es2, es = es1 ++ (a, v) :: es2 ∧ a ∉ es2.*1.
Proof.
  intros Hnd (es1 & es2 & ->)%list_elem_of_split.
  exists es1, es2. split; [done|].
  rewrite fmap_app, fmap_cons in Hnd.
  apply NoDup_app in Hnd as (_ & _ & Hnd).
  by apply NoDup_cons in Hnd as [Hnotin _].
Qed.

Lemma write_all_lookup (codec : component) (es : list (Z * Z)) (w : world)
    (a v : Z) :
  NoDup es.*1 → (a, v) ∈ es →
  regmap (write_all codec es w) !! (codec, a) = Some v.
Proof.
  intros Hnd Hin.
  destruct (entries_split_last es a v Hnd Hin) as (es1 & es2 & -> & Hlast).
  rewrite regmap_write_all. by apply foldl_insert_lookup_last.
Qed.

Lemma active_addresses_distinct : NoDup ACTIVE.*1.
Proof.
  refine (bool_decide_unpack _ _). vm_compute. reflexivity.
Qed.

Lemma quiet_addresses_distinct : NoDup QUIET.*1.
Proof.
  refine (bool_decide_unpack _ _). vm_compute. reflexivity.
Qed.

Lemma tables_zero_quiet : Forall (λ e : Z * Z, e.2 = 0) QUIET.
Proof. vm_compute. repeat constructor. Qed.

Lemma quiet_entry_zero (a : Z) : a ∈ QUIET.*1 → (a, 0) ∈ QUIET.
Proof.
  intros ([reg val] & -> & Hin)%list_elem_of_fmap. cbn.
  pose proof (proj1 (Forall_forall _ _) tables_zero_quiet _ Hin) as Hz.
  cbn in Hz. by subst val.
Qed.

Section Contents.
Variable core : collaborators.

Lemma hw_params_regmap sub params w :
  regmap (after (csys_audio_hw_params core sub params w)) = regmap w.
Proof.
  destruct (Z.eq_dec (params_rate params) 44100) as [Hrate|Hrate].
  - rewrite hw_params_accepts by done. apply set_mclk_regmap.
  - by rewrite hw_params_rejects.
Qed.

Lemma stream_start_lookup sub params w codec a v :
  bound_codec (private_data sub) = Some codec → (a, v) ∈ ACTIVE →
  regmap (after (stream_start (csys_dailink core) sub params w))
    !! (codec, a) = Some v.
Proof.
  intros Hcodec Hin.
  rewrite stream_start_eq, hw_params_regmap, startup_eq, Hcodec, after_pair.
  by apply write_all_lookup; [apply active_addresses_distinct|].
Qed.

End Contents.

(** X7. With a codec bound, every stream start leaves each register of
    the active table at its table value, whether the request is accepted,
    refused for its rate or failed by the clock set-up: a refused stream
    start leaves the outputs at their playing level. *)
Theorem stream_start_programs_codec (core : collaborators)
    (sub : snd_pcm_substream) (params : snd_pcm_hw_params) (w : world)
    (codec : component) (a v : Z) :
  bound_codec (private_data sub) = Some codec →
  (a, v) ∈ ACTIVE →
  regmap (after (stream_start (csys_dailink core) sub params w))
    !! (codec, a) = Some v.
Proof.
  intros Hcodec Hin.
  rewrite stream_start_eq, hw_params_regmap, startup_eq, Hcodec, after_pair.
  destruct (entries_split_last ACTIVE a v active_addresses_distinct Hin)
    as (es1 & es2 & Hsplit & Hlast).
  rewrite regmap_write_all, Hsplit.
  by apply foldl_insert_lookup_last.
Qed.

(** A 48000 Hz request is refused, and register 0x2e (LOUT1 volume) of
    the codec holds 0x24 afterwards. *)
Lemma stream_start_programs_codec_witness :
  result (stream_start (csys_dailink Sample.core_ok) Sample.sub_codec
            Sample.rate_48000 Sample.w0) = - EINVAL
  ∧ regmap (after (stream_start (csys_dailink Sample.core_ok)
                     Sample.sub_codec Sample.rate_48000 Sample.w0))
      !! (11%nat, 0x2e) = Some 0x24.
Proof.
  split; [reflexivity|].
  apply (stream_start_programs_codec Sample.core_ok Sample.sub_codec
           Sample.rate_48000 Sample.w0 11%nat 0x2e 0x24).
  - reflexivity.
  - refine (bool_decide_unpack _ _). vm_compute. reflexivity.
Defined.

(** X8. A stream stop after a stream start changes the registers of the
    quiet table, 0x2e and 0x2f, to 0 and leaves every other register of
    the active table at the value the stream start gave it. *)
Theorem stream_stop_mutes_outputs_only (core : collaborators)
    (sub : snd_pcm_substream) (params : snd_pcm_hw_params) (w : world)
    (codec : component) (a v : Z) :
  bound_codec (private_data sub) = Some codec →
  (a, v) ∈ ACTIVE →
  regmap (after (stream_stop (csys_dailink core) sub
                   (after (stream_start (csys_dailink core) sub params w))))
    !! (codec, a)
  = Some (if bool_decide (a ∈ [0x2e; 0x2f]) then 0 else v).
Proof.
  intros Hcodec Hin. unfold stream_stop.
  cbn [shutdown ops csys_dailink rk_ops].
  rewrite shutdown_eq, Hcodec, after_pair.
  case_bool_decide as Ha.
  - apply write_all_lookup; [apply quiet_addresses_distinct|].
    by apply quiet_entry_zero.
  - rewrite regmap_write_all, foldl_insert_lookup_other by (by right).
    by apply stream_start_lookup.
Qed.

(** After start and stop on the sample link, register 0x2e holds 0 and
    register 0x26 (DAC mixer) still holds 0x12. *)
Lemma stream_stop_mutes_outputs_only_witness :
  regmap (after (stream_stop (csys_dailink Sample.core_ok) Sample.sub_codec
                   (after (stream_start (csys_dailink Sample.core_ok)
                             Sample.sub_codec Sample.rate_44100 Sample.w0))))
    !! (11%nat, 0x2e) = Some 0
  ∧ regmap (after (stream_stop (csys_dailink Sample.core_ok) Sample.sub_codec
                     (after (stream_start (csys_dailink Sample.core_ok)
                               Sample.sub_codec Sample.rate_44100 Sample.w0))))
      !! (11%nat, 0x26) = Some 0x12.
Proof.
  split.
  - apply (stream_stop_mutes_outputs_only Sample.core_ok Sample.sub_codec
             Sample.rate_44100 Sample.w0 11%nat 0x2e 0x24);
      [reflexivity | refine (bool_decide_unpack _ _); vm_compute; reflexivity].
  - apply (stream_stop_mutes_outputs_only Sample.core_ok Sample.sub_codec
             Sample.rate_44100 Sample.w0 11%nat 0x26 0x12);
      [reflexivity | refine (bool_decide_unpack _ _); vm_compute; reflexivity].
Defined.

(** ** When the callbacks succeed, what they log, what they ignore *)

Lemma set_mclk_result_zero core rtd w :
  result (csys_audio_set_mclk core rtd w) = 0
  ↔ cpu_clock_answer core rtd w = 0 ∧ codec_clock_answer core rtd w = 0.
Proof.
  destruct (set_mclk_cases core rtd w) as [H|[[H1 H2]|[H1 H2]]].
  - rewrite set_mclk_cpu_fails, result_pair by done. tauto.
  - rewrite set_mclk_codec_fails, result_pair by done. tauto.
  - rewrite set_mclk_ok, result_pair by done. tauto.
Qed.

Lemma callbacks_zero_hw_params core rtd params w :
  result (csys_audio_hw_params core (Substream rtd) params w) = 0
  ↔ params_rate params = 44100
    ∧ cpu_clock_answer core rtd w = 0 ∧ codec_clock_answer core rtd w = 0.
Proof.
  destruct (Z.eq_dec (params_rate params) 44100) as [Hrate|Hrate].
  - rewrite hw_params_accepts by done. cbn [private_data].
    rewrite set_mclk_result_zero. tauto.
  - rewrite hw_params_rejects, result_pair by done.
    split; [discriminate | tauto].
Qed.

(** X9. Card initialisation returns 0 exactly when the interface and the
    codec both accept the master clock, with or without a codec component
    and whatever the register writes return; [hw_params] returns 0 exactly
    when, in addition, the requested rate is 44100. *)
Theorem callbacks_succeed_iff (core : collaborators)
    (rtd : snd_soc_pcm_runtime) (params : snd_pcm_hw_params) (w : world) :
  (result (card_init (csys_dailink core) rtd w) = 0
   ↔ cpu_clock_answer core rtd w = 0 ∧ codec_clock_answer core rtd w = 0)
  ∧ (result (csys_audio_hw_params core (Substream rtd) params w) = 0
     ↔ params_rate params = 44100
       ∧ cpu_clock_answer core rtd w = 0 ∧ codec_clock_answer core rtd w = 0).
Proof.
  split.
  - unfold card_init. cbn [init csys_dailink]. rewrite init_eq. cbv zeta.
    rewrite <- set_mclk_result_zero.
    destruct (Z.eqb_spec (result (csys_audio_set_mclk core rtd w)) 0)
      as [Hz|Hnz]; cbn [negb]; [by rewrite result_pair | done].
  - apply callbacks_zero_hw_params.
Qed.

(** X10. The clock set-up logs an error exactly when it fails, and the
    one message it logs names the side that refused: the interface DAI
    when the interface refused, the codec DAI when the interface accepted
    and the codec refused. *)
Theorem set_mclk_logs_refusal (core : collaborators)
    (rtd : snd_soc_pcm_runtime) (w : world) :
  let m := csys_audio_set_mclk core rtd in
  dev_errs (emitted m w)
  = (if decide (cpu_clock_answer core rtd w ≠ 0)
     then [(cpu_dai rtd, "Cannot set cpu MCLK\n"%string)]
     else if decide (codec_clock_answer core rtd w ≠ 0)
     then [(codec_dai rtd, "Cannot set codec MCLK\n"%string)]
     else [])
  ∧ (result (m w) = 0 ↔ dev_errs (emitted m w) = []).
Proof.
  cbv zeta. unfold emitted.
  destruct (set_mclk_cases core rtd w) as [H|[[H1 H2]|[H1 H2]]];
    [rewrite set_mclk_cpu_fails by done
    |rewrite set_mclk_codec_fails by done
    |rewrite set_mclk_ok by done];
    rewrite result_pair, after_pair; trace_assoc;
    rewrite drop_app_length; cbn;
    repeat case_decide; try done; split; try done; split; done.
Qed.

Section BusErrors.
Variables core1 core2 : collaborators.
Hypothesis same_clock : ∀ d clk_id freq dir w,
  sysclk_result core1 d clk_id freq dir w
  = sysclk_result core2 d clk_id freq dir w.

Lemma set_mclk_same rtd w :
  csys_audio_set_mclk core1 rtd w = csys_audio_set_mclk core2 rtd w.
Proof.
  unfold csys_audio_set_mclk. run. rewrite same_clock.
  destruct (negb _); [done|]. cbn. by rewrite same_clock.
Qed.

Lemma invoke_same rtd cb w :
  invoke (csys_dailink core1) rtd cb w = invoke (csys_dailink core2) rtd cb w.
Proof.
  destruct cb as [| |params|]; cbn [invoke init ops startup hw_params shutdown
                                    csys_dailink rk_ops].
  - by rewrite !init_eq, set_mclk_same.
  - by rewrite !startup_eq.
  - unfold csys_audio_hw_params. destruct (negb _); [done|].
    unfold_monad. by rewrite set_mclk_same.
  - unfold_monad. by rewrite !shutdown_eq.
Qed.

Lemma session_same rtd cbs :
  ∀ w, session (csys_dailink core1) rtd cbs w
       = session (csys_dailink core2) rtd cbs w.
Proof.
  induction cbs as [|cb cbs IH]; intros w; [done|].
  cbn [session]. unfold_monad. rewrite invoke_same.
  destruct (invoke _ _ _ _) as [ret w1]. apply IH.
Qed.

End BusErrors.

(** X11. What [snd_soc_component_write] returns is never looked at: two
    cores that answer the clock requests alike make every callback return
    the same result and leave the same world, and so every sequence of
    callbacks, however their register writes fare. *)
Theorem session_ignores_write_results (core1 core2 : collaborators)
    (rtd : snd_soc_pcm_runtime) (cbs : list callback) (w : world) :
  (∀ d clk_id freq dir w',
     sysclk_result core1 d clk_id freq dir w'
     = sysclk_result core2 d clk_id freq dir w') →
  (∀ cb, invoke (csys_dailink core1) rtd cb w
         = invoke (csys_dailink core2) rtd cb w)
  ∧ session (csys_dailink core1) rtd cbs w
    = session (csys_dailink core2) rtd cbs w.
Proof.
  intros Hsame. split.
  - intros cb. by apply invoke_same.
  - by apply session_same.
Qed.

(** A stream life with every register write failing on the bus is the
    stream life with every write succeeding. *)
Lemma session_ignores_write_results_witness :
  session (csys_dailink Faulty.core_bus_fails) Sample.rtd_codec
    Faulty.one_stream Sample.w0
  = session (csys_dailink Sample.core_ok) Sample.rtd_codec
      Faulty.one_stream Sample.w0.
Proof.
  exact (proj2 (session_ignores_write_results Faulty.core_bus_fails
                  Sample.core_ok Sample.rtd_codec Faulty.one_stream
                  Sample.w0 (λ _ _ _ _ _, eq_refl))).
Defined.

(** ** Probing *)

Ltac probe_unfold :=
  unfold csys_audio_probe, pemitted, devm_kzalloc, of_parse_phandle,
    of_parse_phandle_with_fixed_args, snd_soc_get_dai_name_codecs,
    devm_snd_soc_register_card, pdev_err, set_card_dev,
    snd_soc_card_set_drvdata, set_cpus_of_node, set_platforms_of_node,
    set_codecs_of_node;
  unfold_monad; cbn.

(** Split on the next answer the probe looks at. *)
Ltac probe_next :=
  match goal with
  | |- context [kzalloc_result ?k ?d ?s] =>
    generalize (kzalloc_result k d s); intros [?machine|]
  | |- context [parse_phandle_result ?k ?np ?p ?i ?s] =>
    generalize (parse_phandle_result k np p i s); intros [?node|]
  | |- context [parse_fixed_args_result ?k ?np ?p ?c ?i ?s] =>
    generalize (parse_fixed_args_result k np p c i s); intros [?ret ?args]
  | |- context [get_dai_name_result ?k ?a ?n ?s] =>
    generalize (get_dai_name_result k a n s); intros [?ret ?name]
  | |- context [register_card_result ?k ?d ?s] =>
    generalize (register_card_result k d s); intros ?ret
  | |- context [negb (?r =? 0)] =>
    destruct (Z.eqb_spec r 0)
  | |- context [?r =? - ?e] =>
    destruct (Z.eqb_spec r (- e))
  end; cbn.

Ltac probe_paths := probe_unfold; repeat probe_next.

Ltac probe_trace := rewrite <- ?app_assoc; cbn; rewrite drop_app_length; cbn.


(** X13. Provided [ENOMEM] is not 0, the probe returns 0 exactly when all
    six calls were made and succeeded, each lookup on the device's own
    node with index 0 and the card registered last. The link then names
    the same node for the interface and for the platform, the codec node
    for the codec, and the card carries the device and the allocated
    driver data. *)
Theorem probe_success (kernel : platform) (ENOMEM EPROBE_DEFER : Z)
    (pdev : platform_device) (s : probe_state) :
  ENOMEM ≠ 0 →
  let r := csys_audio_probe kernel ENOMEM EPROBE_DEFER pdev s in
  let dev := pdev_dev pdev in
  let np := pdev_of_node pdev in
  r.1 = 0
  ↔ ∃ machine cpu codec a,
      pemitted (csys_audio_probe kernel ENOMEM EPROBE_DEFER pdev) s
      = [ PvKzalloc dev (Some machine)
        ; PvParsePhandle np "chamsys,audio-cpu" 0 (Some cpu)
        ; PvParsePhandle np "chamsys,audio-codec" 0 (Some codec)
        ; PvParseFixedArgs np "chamsys,audio-codec" 0 0 0
        ; PvGetDaiName a 0
        ; PvRegisterCard dev 0 ]
      ∧ of_node (cpus r.2) = Some cpu
      ∧ of_node (platforms r.2) = Some cpu
      ∧ of_node (codecs r.2) = Some codec
      ∧ card_dev r.2 = Some dev
      ∧ card_drvdata r.2 = Some machine.
Proof.
  intros Hnomem. cbv zeta. probe_paths; probe_trace.
  all: split; [intros Hres | intros (machine' & cpu & codec & a & Hem & _)].
  all: try (exfalso; first [lia | discriminate | congruence]).
  all: try (eexists _, _, _, _; repeat split; repeat f_equal; congruence).
  all: first [lia | congruence].
Qed.

(** On the complete sample board the probe returns 0, and the link names
    node 2 for the interface and the platform and node 3 for the codec. *)
Lemma probe_success_witness :
  (12 : Z) ≠ 0
  ∧ (csys_audio_probe Board.kernel_ok 12 517 Board.pdev module_loaded).1 = 0
  ∧ ∃ machine cpu codec a,
      pemitted (csys_audio_probe Board.kernel_ok 12 517 Board.pdev)
        module_loaded
      = [ PvKzalloc 7%nat (Some machine)
        ; PvParsePhandle (Some 1%nat) "chamsys,audio-cpu" 0 (Some cpu)
        ; PvParsePhandle (Some 1%nat) "chamsys,audio-codec" 0 (Some codec)
        ; PvParseFixedArgs (Some 1%nat) "chamsys,audio-codec" 0 0 0
        ; PvGetDaiName a 0
        ; PvRegisterCard 7%nat 0 ]
      ∧ of_node (cpus (csys_audio_probe Board.kernel_ok 12 517 Board.pdev
                         module_loaded).2) = Some cpu
      ∧ of_node (platforms (csys_audio_probe Board.kernel_ok 12 517
                              Board.pdev module_loaded).2) = Some cpu
      ∧ of_node (codecs (csys_audio_probe Board.kernel_ok 12 517 Board.pdev
                           module_loaded).2) = Some codec
      ∧ card_dev (csys_audio_probe Board.kernel_ok 12 517 Board.pdev
                    module_loaded).2 = Some 7%nat
      ∧ card_drvdata (csys_audio_probe Board.kernel_ok 12 517 Board.pdev
                        module_loaded).2 = Some machine.
Proof.
  assert ((12 : Z) ≠ 0) as H by lia.
  split; [exact H|]. split; [reflexivity|].
  exact (proj1 (probe_success Board.kernel_ok 12 517 Board.pdev
                  module_loaded H) eq_refl).
Defined.

(** X14. The probe fills the module-wide link as it goes and does not
    undo it on failure. Once the interface node is resolved, the interface
    and platform slots carry it when the probe returns, whatever it
    returns; while it is not resolved (allocation failed or property
    missing) the three slots are untouched. A missing codec property gives
    -EINVAL with the codec slot untouched and the interface slot already
    filled. The codec slot's [name] is never changed. *)
Theorem probe_link_update (kernel : platform) (ENOMEM EPROBE_DEFER : Z)
    (pdev : platform_device) (s : probe_state) :
  let m := csys_audio_probe kernel ENOMEM EPROBE_DEFER pdev in
  let np := pdev_of_node pdev in
  (∀ cpu, PvParsePhandle np "chamsys,audio-cpu" 0 (Some cpu) ∈ pemitted m s →
     cpus (m s).2 = set_of_node (cpus s) (Some cpu)
     ∧ platforms (m s).2 = set_of_node (platforms s) (Some cpu))
  ∧ ((∀ cpu,
        PvParsePhandle np "chamsys,audio-cpu" 0 (Some cpu) ∉ pemitted m s) →
     cpus (m s).2 = cpus s ∧ platforms (m s).2 = platforms s
     ∧ codecs (m s).2 = codecs s)
  ∧ (PvParsePhandle np "chamsys,audio-codec" 0 None ∈ pemitted m s →
     (m s).1 = - EINVAL ∧ codecs (m s).2 = codecs s
     ∧ is_Some (of_node (cpus (m s).2)))
  ∧ name (codecs (m s).2) = name (codecs s).
Proof.
  cbv zeta. probe_paths; probe_trace.
  all: split; [intros cpu Hin|split; [intros Hnot|split; [intros Hin|done]]].
  all: try (set_unfold in Hin; destruct_or?; simplify_eq; by eauto).
  all: first [done | exfalso; eapply Hnot; repeat constructor].
Qed.

(** The board without a codec property: the probe returns -EINVAL, and
    the interface and platform slots of the link name node 2 all the
    same. *)
Lemma probe_link_update_witness :
  (csys_audio_probe Board.kernel_no_codec 12 517 Board.pdev module_loaded).1
  = - EINVAL
  ∧ of_node (cpus (csys_audio_probe Board.kernel_no_codec 12 517 Board.pdev
                     module_loaded).2) = Some 2%nat
  ∧ of_node (platforms (csys_audio_probe Board.kernel_no_codec 12 517
                          Board.pdev module_loaded).2) = Some 2%nat.
Proof.
  split; [reflexivity|].
  pose proof (proj1 (probe_link_update Board.kernel_no_codec 12 517
                       Board.pdev module_loaded) 2%nat) as H.
  destruct H as [Hc Hp].
  - vm_compute. repeat constructor.
  - rewrite Hc, Hp. split; reflexivity.
Defined.

(** X15. What the card registration returns is what the probe returns.
    A return of 0 or of -EPROBE_DEFER ends the probe without a message;
    any other return is logged, with its number, as the last thing the
    probe does. *)
Theorem probe_register_outcome (kernel : platform) (ENOMEM EPROBE_DEFER : Z)
    (pdev : platform_device) (s : probe_state) (ret : Z) :
  let m := csys_audio_probe kernel ENOMEM EPROBE_DEFER pdev in
  let dev := pdev_dev pdev in
  PvRegisterCard dev ret ∈ pemitted m s →
  (m s).1 = ret
  ∧ last (pemitted m s)
    = Some (if decide (ret = 0 ∨ ret = - EPROBE_DEFER)
            then PvRegisterCard dev ret
            else PvDevErr dev "Soc register card failed %d\n" [ret]).
Proof.
  cbv zeta. probe_paths; probe_trace; intros Hin.
  all: set_unfold in Hin; destruct_or?; simplify_eq.
  all: case_decide; first [done | lia | split; [lia | done]].
Qed.

(** The board whose card registration returns -517: the probe returns
    -517 and its last call is the registration, with no message after
    it. *)
Lemma probe_register_outcome_witness :
  (csys_audio_probe Board.kernel_defers 12 517 Board.pdev module_loaded).1
  = -517
  ∧ last (pemitted (csys_audio_probe Board.kernel_defers 12 517 Board.pdev)
            module_loaded)
    = Some (PvRegisterCard 7%nat (-517)).
Proof.
  apply (probe_register_outcome Board.kernel_defers 12 517 Board.pdev
           module_loaded (-517)).
  vm_compute. repeat constructor.
Defined.

(** X16. Provided [ENOMEM] is not 0, the probe fails without logging
    anything in exactly two cases: the allocation failed, or the card
    registration returned a non-zero -EPROBE_DEFER. Every other failure
    comes with one message. *)
Theorem probe_silent_failures (kernel : platform) (ENOMEM EPROBE_DEFER : Z)
    (pdev : platform_device) (s : probe_state) :
  ENOMEM ≠ 0 →
  let m := csys_audio_probe kernel ENOMEM EPROBE_DEFER pdev in
  let dev := pdev_dev pdev in
  ((m s).1 ≠ 0 ∧ CallDevErr ∉ map call_of (pemitted m s))
  ↔ (PvKzalloc dev None ∈ pemitted m s
     ∨ (EPROBE_DEFER ≠ 0
        ∧ PvRegisterCard dev (- EPROBE_DEFER) ∈ pemitted m s)).
Proof.
  intros Hnomem. cbv zeta. probe_paths; probe_trace.
  all: split; [intros [Hres Hlog] | intros Hin].
  all: try solve [exfalso; apply Hlog; repeat constructor].
  all: try solve [exfalso; lia].
  all: try solve [left; repeat constructor].
  all: try solve [right; split; [lia | subst; repeat constructor]].
  all: solve [set_unfold in Hin; set_unfold;
              intuition (simplify_eq; try lia; try discriminate)].
Qed.

(** On the deferring board the probe fails and logs nothing. *)
Lemma probe_silent_failures_witness :
  (12 : Z) ≠ 0
  ∧ (csys_audio_probe Board.kernel_defers 12 517 Board.pdev module_loaded).1
    ≠ 0
  ∧ CallDevErr
    ∉ map call_of (pemitted (csys_audio_probe Board.kernel_defers 12 517
                               Board.pdev) module_loaded).
Proof.
  assert ((12 : Z) ≠ 0) as H by lia.
  split; [exact H|].
  apply (proj2 (probe_silent_failures Board.kernel_defers 12 517 Board.pdev
                  module_loaded H)).
  right. split; [lia|]. vm_compute. repeat constructor.
Defined.

(** ** The clock against the rate, and the outputs between streams *)

(** X17. Whenever [hw_params] accepts a request, it has made exactly two
    clock requests, to the interface DAI and then to the codec DAI, both
    for 256 times the requested sample rate. *)
Theorem hw_params_clock_ratio (core : collaborators)
    (sub : snd_pcm_substream) (params : snd_pcm_hw_params) (w : world) :
  result (csys_audio_hw_params core sub params w) = 0 →
  clock_calls (emitted (csys_audio_hw_params core sub params) w)
  = [ (cpu_dai (private_data sub), 0,
       CSYS_AUDIO_MCLK_FS * params_rate params, SND_SOC_CLOCK_OUT)
    ; (codec_dai (private_data sub), 0,
       CSYS_AUDIO_MCLK_FS * params_rate params, SND_SOC_CLOCK_OUT) ].
Proof.
  intros Hres. destruct sub as [rtd].
  apply callbacks_zero_hw_params in Hres as (Hrate & H1 & H2).
  unfold emitted. rewrite hw_params_accepts by done. cbn [private_data].
  rewrite set_mclk_ok by done. rewrite Hrate, after_pair. trace_assoc.
  by rewrite drop_app_length.
Qed.

Lemma hw_params_clock_ratio_witness :
  clock_calls (emitted (csys_audio_hw_params Sample.core_ok Sample.sub_codec
                          Sample.rate_44100) Sample.w0)
  = [ (0%nat, 0, 256 * 44100, SND_SOC_CLOCK_OUT)
    ; (1%nat, 0, 256 * 44100, SND_SOC_CLOCK_OUT) ].
Proof.
  exact (hw_params_clock_ratio Sample.core_ok Sample.sub_codec
           Sample.rate_44100 Sample.w0 eq_refl).
Defined.

Lemma write_quiet_mutes codec w : outputs_muted codec (write_all codec QUIET w).
Proof.
  split; (apply write_all_lookup; [apply quiet_addresses_distinct|]);
    apply quiet_entry_zero; refine (bool_decide_unpack _ _);
    vm_compute; reflexivity.
Qed.

Lemma session_app link rtd cbs1 cbs2 :
  ∀ w, after (session link rtd (cbs1 ++ cbs2) w)
       = after (session link rtd cbs2 (after (session link rtd cbs1 w))).
Proof.
  induction cbs1 as [|cb cbs1 IH]; intros w; [done|].
  cbn [app session]. unfold_monad.
  destruct (invoke link rtd cb w) as [ret w1]. apply IH.
Qed.

Section Muted.
Variable core : collaborators.

Lemma invoke_keeps_muted rtd codec cb w :
  bound_codec rtd = Some codec → cb ≠ CbStartup →
  outputs_muted codec w →
  outputs_muted codec (after (invoke (csys_dailink core) rtd cb w)).
Proof.
  intros Hcodec Hcb Hmuted.
  destruct cb as [| |params|]; [| done | |];
    cbn [invoke init ops startup hw_params shutdown csys_dailink rk_ops].
  - rewrite init_eq. cbv zeta. destruct (negb _).
    + unfold outputs_muted. by rewrite set_mclk_regmap.
    + rewrite Hcodec, after_pair. apply write_quiet_mutes.
  - unfold outputs_muted. by rewrite hw_params_regmap.
  - unfold_monad. rewrite shutdown_eq. cbn [private_data].
    rewrite Hcodec, after_pair. apply write_quiet_mutes.
Qed.

Lemma session_keeps_muted rtd codec cbs :
  bound_codec rtd = Some codec → CbStartup ∉ cbs →
  ∀ w, outputs_muted codec w →
       outputs_muted codec (after (session (csys_dailink core) rtd cbs w)).
Proof.
  intros Hcodec. induction cbs as [|cb cbs IH]; intros Hno w Hmuted; [done|].
  apply not_elem_of_cons in Hno as [Hcb Hno].
  cbn [session]. unfold_monad.
  pose proof (invoke_keeps_muted rtd codec cb w Hcodec (not_eq_sym Hcb) Hmuted)
    as Hstep.
  destruct (invoke _ _ _ _) as [ret w1]. rewrite after_pair in Hstep.
  by apply IH.
Qed.

End Muted.

(** X18. With a codec bound, once a stream has been shut down the two
    output registers hold 0 and keep holding 0 through every later
    callback that is not [startup]: neither card initialisation nor
    [hw_params], accepted or refused, nor another shutdown brings the
    outputs back up. *)
Theorem outputs_stay_muted (core : collaborators) (rtd : snd_soc_pcm_runtime)
    (codec : component) (cbs1 cbs2 : list callback) (w : world) :
  bound_codec rtd = Some codec →
  CbStartup ∉ cbs2 →
  outputs_muted codec
    (after (session (csys_dailink core) rtd (cbs1 ++ CbShutdown :: cbs2) w)).
Proof.
  intros Hcodec Hno.
  rewrite session_app. cbn [session]. unfold_monad.
  cbn [invoke shutdown ops csys_dailink rk_ops]. unfold_monad.
  rewrite shutdown_eq. cbn [private_data]. rewrite Hcodec.
  apply session_keeps_muted; [done | done |]. apply write_quiet_mutes.
Qed.

(** A stream life on the sample link, then a refused request and a card
    initialisation: the outputs of codec 11 are still at 0. *)
Lemma outputs_stay_muted_witness :
  regmap (after (session (csys_dailink Sample.core_ok) Sample.rtd_codec
                   ([CbInit; CbStartup; CbHwParams Sample.rate_44100]
                    ++ CbShutdown
                       :: [CbHwParams Sample.rate_48000; CbInit])
                   Sample.w0)) !! (11%nat, 0x2e) = Some 0.
Proof.
  refine (proj1 (outputs_stay_muted Sample.core_ok Sample.rtd_codec 11%nat
                   [CbInit; CbStartup; CbHwParams Sample.rate_44100]
                   [CbHwParams Sample.rate_48000; CbInit] Sample.w0
                   eq_refl _)).
  rewrite !not_elem_of_cons. repeat split; try discriminate.
  apply not_elem_of_nil.
Defined.
